(** * python-openstackclient: the compute v2 REST helper and the volume type
      commands

    A shallow embedding of [openstackclient/api/compute_v2.py] (class [APIv2])
    and of [openstackclient/volume/v2/volume_type.py] (the cliff commands
    [CreateVolumeType], [ListVolumeType], [SetVolumeType], [ShowVolumeType]
    and [UnsetVolumeType]), followed by the properties proved about them.

    Python data is embedded as the inductive type [pyval]; a [dict] is an
    association list in insertion order with unique keys.  Every call that
    leaves the two source files (the HTTP transport, the methods inherited
    from [osc_lib.api.BaseAPI], the cinderclient managers, the resource
    lookup of [openstackclient.common.utils]) is an event [call]: it is
    appended to a trace and answered by a [world], a function of the trace so
    far and of the call.  Python exceptions are the constructors of [exn]. *)

From Stdlib Require Import String Ascii List ZArith Lia Bool Permutation Sorted.
From Stdlib Require Import DecimalString.
Import ListNotations.
Local Open Scope list_scope.
Local Open Scope string_scope.

(** ** Python values *)

#[local] Set Warnings "-register-all".

(** [None], [bool], [int], [str], [list] (also standing for tuples) and
    [dict] with string keys.  JSON numbers are taken to be integers. *)
Inductive pyval : Type :=
| VNone
| VBool (b : bool)
| VInt (n : Z)
| VStr (s : string)
| VList (items : list pyval)
| VDict (entries : list (string * pyval)).

Definition dict := list (string * pyval).

(** Number of constructors of a value. *)
Fixpoint size (v : pyval) : nat :=
  match v with
  | VList l => S (list_sum (map size l))
  | VDict d => S (list_sum (map (fun kv => size (snd kv)) d))
  | _ => 1
  end.

(** Python truth value testing, as used by [if v] and [not v]. *)
Definition truthy (v : pyval) : bool :=
  match v with
  | VNone => false
  | VBool b => b
  | VInt n => negb (n =? 0)%Z
  | VStr s => negb (s =? "")
  | VList l => match l with [] => false | _ => true end
  | VDict d => match d with [] => false | _ => true end
  end.

(** [repr(v)].  Quotes and backslashes inside strings are not escaped. *)
Fixpoint repr (v : pyval) : string :=
  match v with
  | VNone => "None"
  | VBool true => "True"
  | VBool false => "False"
  | VInt n => NilZero.string_of_int (Z.to_int n)
  | VStr s => "'" ++ s ++ "'"
  | VList l => "[" ++ String.concat ", " (map repr l) ++ "]"
  | VDict d =>
      "{" ++ String.concat ", "
               (map (fun kv => "'" ++ fst kv ++ "': " ++ repr (snd kv)) d)
          ++ "}"
  end.

(** The line feed character, [\n]. *)
Definition newline : string := String (ascii_of_nat 10) EmptyString.

(** [str(v)], the conversion done by [%s]. *)
Definition str (v : pyval) : string :=
  match v with
  | VStr s => s
  | _ => repr v
  end.

(** *** Dictionaries *)

(** [d.get(k)]: the value stored under [k], if any. *)
Fixpoint dict_get (d : dict) (k : string) : option pyval :=
  match d with
  | [] => None
  | (k', v) :: d' => if k' =? k then Some v else dict_get d' k
  end.

(** [k in d]. *)
Definition dict_has (d : dict) (k : string) : bool :=
  match dict_get d k with Some _ => true | None => false end.

(** [d[k] = v]: overwrite in place when the key exists, append otherwise. *)
Fixpoint dict_set (d : dict) (k : string) (v : pyval) : dict :=
  match d with
  | [] => [(k, v)]
  | (k', v') :: d' =>
      if k' =? k then (k', v) :: d' else (k', v') :: dict_set d' k v
  end.

(** The dictionary left by [d.pop(k)] (or [del d[k]]). *)
Definition dict_remove (d : dict) (k : string) : dict :=
  filter (fun kv => negb (fst kv =? k)) d.

(** [d.update(other)]. *)
Definition dict_update (d other : dict) : dict :=
  fold_left (fun acc kv => dict_set acc (fst kv) (snd kv)) other d.

(** [list(d.keys())]. *)
Definition dict_keys (d : dict) : list string := map fst d.

(** ** Effects: exceptions, calls, worlds *)

Inductive exn : Type :=
| KsaNotFound                 (* keystoneauth1.exceptions.NotFound *)
| KsaBadRequest               (* keystoneauth1.exceptions.BadRequest *)
| OscNotFound (msg : string)  (* osc_lib.exceptions.NotFound *)
| KeyError (key : string)
| IndexError
| TypeError
| AttributeError (name : string)
| SystemExit (code : Z)
| OtherError (name : string). (* any other exception of a collaborator *)

Inductive outcome (A : Type) : Type :=
| Return (a : A)
| Raise (e : exn).
Arguments Return {A} a.
Arguments Raise {A} e.

(** The calls that leave the two source files. *)
Inductive call : Type :=
| Request (method url : string) (json : option pyval)
    (* self._request(method, url, json=json).json() *)
| FindOne (path : string) (kwargs : dict)
    (* BaseAPI.find_one(path, **kwargs) *)
| ListCall (path : string) (params : dict)
    (* BaseAPI.list(path, **params) *)
| CreateCall (path : string) (json : pyval)
    (* BaseAPI.create(path, json=json) *)
| DeleteCall (path : string)
    (* BaseAPI.delete(path) *)
| VolumeTypesCreate (name description : pyval) (kwargs : dict)
    (* volume_client.volume_types.create(name, description=..., **kwargs) *)
| VolumeTypesList
    (* volume_client.volume_types.list() *)
| VolumeTypesUpdate (id : pyval) (kwargs : dict)
    (* volume_client.volume_types.update(id, **kwargs) *)
| VolumeTypesDelete (id : pyval)
    (* volume_client.volume_types.delete(id) *)
| SetKeys (volume_type metadata : pyval)
    (* volume_type.set_keys(metadata) *)
| UnsetKeys (volume_type keys : pyval)
    (* volume_type.unset_keys(keys) *)
| FindResource (name_or_id : pyval)
    (* utils.find_resource(volume_client.volume_types, name_or_id) *)
| LogError (msg : string).
    (* self.app.log.error(msg) *)

Definition trace := list call.

(** A world answers a call, given the calls made before it. *)
Definition world := trace -> call -> outcome pyval.

(** Computations read the world, extend the trace and return or raise. *)
Definition M (A : Type) : Type := world -> trace -> outcome A * trace.

Definition ret {A} (a : A) : M A := fun _ tr => (Return a, tr).

Definition raise {A} (e : exn) : M A := fun _ tr => (Raise e, tr).

Definition bind {A B} (c : M A) (k : A -> M B) : M B :=
  fun w tr =>
    match c w tr with
    | (Return a, tr') => k a w tr'
    | (Raise e, tr') => (Raise e, tr')
    end.

Notation "x <- c ;; k" := (bind c (fun x => k))
  (at level 61, c at next level, right associativity).
Notation "c ;;; k" := (bind c (fun _ => k))
  (at level 61, right associativity).

(** [try: c  except <classes>: handler]; [catches] tells the exceptions the
    clause names. *)
Definition try_except {A} (c : M A) (catches : exn -> bool) (handler : M A)
  : M A :=
  fun w tr =>
    match c w tr with
    | (Raise e, tr') => if catches e then handler w tr' else (Raise e, tr')
    | r => r
    end.

(** Make a call: record it and take the world's answer. *)
Definition perform (c : call) : M pyval :=
  fun w tr => (w tr c, (tr ++ [c])%list).

(** A logging call returns nothing and cannot fail. *)
Definition log_error (msg : string) : M unit :=
  fun _ tr => (Return tt, (tr ++ [LogError msg])%list).

(** [v[k]] for a string subscript [k]. *)
Definition getitem (v : pyval) (k : string) : M pyval :=
  match v with
  | VDict d =>
      match dict_get d k with
      | Some x => ret x
      | None => raise (KeyError k)
      end
  | _ => raise TypeError
  end.

(** [obj.name] on an [argparse.Namespace] or on a resource object, both held
    as the dictionary of their attributes. *)
Definition getattr (obj : pyval) (name : string) : M pyval :=
  match obj with
  | VDict d =>
      match dict_get d name with
      | Some x => ret x
      | None => raise (AttributeError name)
      end
  | _ => raise (AttributeError name)
  end.

(** ** [openstackclient/api/compute_v2.py] *)

Module APIv2.

(** *** Inherited from [osc_lib.api.BaseAPI] (not part of this repository) *)

(** [self._request(method, url, json=json).json()], the decoded body. *)
Definition _request (method url : string) (json : option pyval) : M pyval :=
  perform (Request method url json).

Definition find_one (path : string) (kwargs : dict) : M pyval :=
  perform (FindOne path kwargs).

Definition list_ (path : string) (params : dict) : M pyval :=
  perform (ListCall path params).

Definition create (path : string) (json : pyval) : M pyval :=
  perform (CreateCall path json).

Definition delete (path : string) : M pyval :=
  perform (DeleteCall path).

(** *** Overrides *)

(** [except (ksa_exceptions.NotFound, ksa_exceptions.BadRequest)] *)
Definition not_found_or_bad_request (e : exn) : bool :=
  match e with
  | KsaNotFound | KsaBadRequest => true
  | _ => false
  end.

(** [except ksa_exceptions.NotFound] *)
Definition not_found (e : exn) : bool :=
  match e with
  | KsaNotFound => true
  | _ => false
  end.

(** [find(self, path, value=None, attr=None)].  [value] is the search
    expression, a string ("required, really"); [attr] may be left [None], in
    which case the keyword expansion [**{None: value}] is a [TypeError].
    The translation function [_] is the identity. *)
Definition find (path value : string) (attr : option string) : M pyval :=
  try_except
    (r <- _request "GET" ("/" ++ path ++ "/" ++ value) None ;;
     match r with
     | VDict d =>
         (* strip off the enclosing dict *)
         match dict_keys d with
         | [] => raise IndexError
         | key :: _ => getitem r key
         end
     | _ => ret r
     end)
    not_found_or_bad_request
    (match attr with
     | None => raise TypeError
     | Some a =>
         let kwargs := [(a, VStr value)] in
         try_except
           (find_one path kwargs)
           not_found
           (let msg := value ++ " not found" in
            raise (OscNotFound msg))
     end).

(** *** Security groups *)

Definition url : string := "/os-security-groups".

Definition security_group_create (name description : pyval) : M pyval :=
  let params := [("name", name); ("description", description)] in
  r <- create url (VDict [("security_group", VDict params)]) ;;
  getitem r "security_group".

Definition security_group_delete (security_group : string) : M pyval :=
  r <- find url security_group (Some "name") ;;
  id <- getitem r "id" ;;
  match id with
  | VNone => ret VNone
  | _ => delete ("/" ++ url ++ "/" ++ str id)
  end.

Definition security_group_find (security_group : string) : M pyval :=
  find url security_group (Some "name").

Definition security_group_list
    (limit marker : pyval) (search_opts : option dict) : M pyval :=
  let params : dict := [] in
  let params :=
    match search_opts with
    | Some opts => filter (fun kv => truthy (snd kv)) opts
    | None => params
    end in
  let params := if truthy limit then dict_set params "limit" limit
                else params in
  let params := if truthy marker then dict_set params "offset" marker
                else params in
  r <- list_ url params ;;
  getitem r "security_groups".

(** The loop of [security_group_set]:
    [for (k, v) in params.items(): if k in security_group: security_group[k] = v] *)
Definition merge_params (security_group params : dict) : dict :=
  fold_left
    (fun sg kv => if dict_has sg (fst kv) then dict_set sg (fst kv) (snd kv)
                  else sg)
    params security_group.

(** [security_group_set(self, security_group=None, **params)].  [params] is
    never [None], so the short-circuit on top of the body never fires.  When
    [find] hands back something that is neither [None] nor a dict, the
    membership test, the item assignment or the subscript [['id']] raises
    [TypeError] before any request is sent. *)
Definition security_group_set (security_group : string) (params : dict)
  : M pyval :=
  sg <- find url security_group (Some "name") ;;
  match sg with
  | VNone => ret VNone
  | VDict d =>
      let sg := VDict (merge_params d params) in
      id <- getitem sg "id" ;;
      r <- _request "PUT" ("/" ++ url ++ "/" ++ str id)
             (Some (VDict [("security_group", sg)])) ;;
      getitem r "security_group"
  | _ => raise TypeError
  end.

End APIv2.

(** ** [argparse], as far as [get_parser] relies on it

    A parser is the list of its [add_argument] calls.  The command line is
    taken after option matching: one pair (argument name, argument string)
    for each argument the user supplied, in order.  The help option of the
    parser that cliff builds is not among the actions modelled. *)

Module argparse.

Inductive action : Type :=
| Store        (* the default action *)
| StoreTrue.   (* action='store_true' *)

Record argument : Type := {
  arg_name : string;      (* the name or flag given to add_argument *)
  arg_action : action;
  arg_default : pyval;
  arg_required : bool
}.

Definition parser := list argument.

Definition positional (a : argument) : bool :=
  negb (String.prefix "-" (arg_name a)).

Fixpoint lstrip_dashes (s : string) : string :=
  match s with
  | String "-" s' => lstrip_dashes s'
  | _ => s
  end.

Fixpoint dashes_to_underscores (s : string) : string :=
  match s with
  | EmptyString => EmptyString
  | String c s' =>
      String (if Ascii.eqb c "-" then "_"%char else c)
             (dashes_to_underscores s')
  end.

(** The attribute of the namespace an argument is stored under. *)
Definition dest (a : argument) : string :=
  if positional a then arg_name a
  else dashes_to_underscores (lstrip_dashes (arg_name a)).

(** The namespace before any argument is consumed: every default. *)
Definition defaults (p : parser) : dict :=
  fold_left
    (fun ns a => if dict_has ns (dest a) then ns
                 else dict_set ns (dest a) (arg_default a))
    p [].

Fixpoint lookup (p : parser) (name : string) : option argument :=
  match p with
  | [] => None
  | a :: p' => if arg_name a =? name then Some a else lookup p' name
  end.

Definition stored (a : argument) (raw : string) : pyval :=
  match arg_action a with
  | Store => VStr raw
  | StoreTrue => VBool true
  end.

Definition mem (name : string) (names : list string) : bool :=
  existsb (String.eqb name) names.

(** Consume the supplied arguments: the namespace, the names seen and the
    arguments left over (unknown, or a positional given again). *)
Fixpoint consume (p : parser) (cmdline : list (string * string))
    (ns : dict) (seen extras : list string)
  : dict * list string * list string :=
  match cmdline with
  | [] => (ns, seen, extras)
  | (name, raw) :: rest =>
      match lookup p name with
      | None => consume p rest ns seen (extras ++ [name])%list
      | Some a =>
          if positional a && mem name seen
          then consume p rest ns seen (extras ++ [raw])%list
          else consume p rest (dict_set ns (dest a) (stored a raw))
                       (name :: seen) extras
      end
  end.

(** The arguments that must be supplied and were not. *)
Definition missing (p : parser) (seen : list string) : list argument :=
  filter
    (fun a => (positional a || arg_required a) && negb (mem (arg_name a) seen))
    p.

(** [parser.parse_args(argv)]: the namespace, or the message of
    [parser.error], which ends the process with status 2. *)
Definition parse_args (p : parser) (cmdline : list (string * string))
  : string + dict :=
  match consume p cmdline (defaults p) [] [] with
  | (ns, seen, extras) =>
      match missing p seen with
      | _ :: _ => inl "the following arguments are required"
      | [] =>
          match extras with
          | _ :: _ => inl "unrecognized arguments"
          | [] => inr ns
          end
      end
  end.

End argparse.

(** [cliff]: parse the arguments of a command with its parser, then run its
    [take_action] on the namespace. *)
Definition run_subcommand {A} (p : argparse.parser)
    (take_action : pyval -> M A) (cmdline : list (string * string)) : M A :=
  match argparse.parse_args p cmdline with
  | inl _ => raise (SystemExit 2)
  | inr ns => take_action (VDict ns)
  end.

(** ** [openstackclient/volume/v2/volume_type.py]

    A volume type resource is held as its [_info] dictionary; its attributes
    ([volume_type.id]) are the entries of that dictionary.  The two pure
    helpers of [openstackclient.common.utils] the commands call,
    [format_dict] and [get_item_properties], are parameters of the handlers
    that use them.  Debug and info logging ([utils.log_method],
    [self.log.debug], [self.log.info]) is left out. *)

(** [resource._info] *)
Definition _info (resource : pyval) : M dict :=
  match resource with
  | VDict d => ret d
  | _ => raise (AttributeError "_info")
  end.

(** [d.pop(k)]: the value removed and the dictionary left. *)
Definition dict_pop (d : dict) (k : string) : M (pyval * dict) :=
  match dict_get d k with
  | Some v => ret (v, dict_remove d k)
  | None => raise (KeyError k)
  end.

(** [sorted(six.iteritems(d))]: the items in ascending order of their keys
    (the keys of a dictionary are distinct, so the values never decide). *)
Fixpoint insert_item (kv : string * pyval) (l : dict) : dict :=
  match l with
  | [] => [kv]
  | x :: l' =>
      if String.leb (fst kv) (fst x) then kv :: l else x :: insert_item kv l'
  end.

Definition sorted_items (d : dict) : dict := fold_right insert_item [] d.

(** The order of the sorted items: by key. *)
Definition key_le (a b : string * pyval) : Prop :=
  String.leb (fst a) (fst b) = true.

(** [zip] applied to the unpacked rows, which are (key, value) pairs: the tuple of the keys
    and the tuple of the values, or nothing at all when there is no row. *)
Definition zip_star (rows : dict) : pyval :=
  match rows with
  | [] => VList []
  | _ => VList [VList (map (fun kv => VStr (fst kv)) rows);
                VList (map snd rows)]
  end.

(** The items a [for] loop or a generator draws from a value. *)
Fixpoint chars (s : string) : list pyval :=
  match s with
  | EmptyString => []
  | String c s' => VStr (String c EmptyString) :: chars s'
  end.

Definition iterate (v : pyval) : M (list pyval) :=
  match v with
  | VList l => ret l
  | VDict d => ret (map VStr (dict_keys d))
  | VStr s => ret (chars s)
  | _ => raise TypeError
  end.

Module CreateVolumeType.

Definition take_action (format_dict : pyval -> pyval) (parsed_args : pyval)
  : M pyval :=
  let kwargs : dict := [] in
  public <- getattr parsed_args "public" ;;
  let kwargs := if truthy public then dict_set kwargs "is_public" (VBool true)
                else kwargs in
  private <- getattr parsed_args "private" ;;
  let kwargs := if truthy private
                then dict_set kwargs "is_public" (VBool false)
                else kwargs in
  name <- getattr parsed_args "name" ;;
  description <- getattr parsed_args "description" ;;
  volume_type <- perform (VolumeTypesCreate name description kwargs) ;;
  info <- _info volume_type ;;
  popped <- dict_pop info "extra_specs" ;;
  let info := snd popped in
  property <- getattr parsed_args "property" ;;
  info <- (if truthy property
           then result <- perform (SetKeys volume_type property) ;;
                ret (dict_update info [("properties", format_dict result)])
           else ret info) ;;
  ret (zip_star (sorted_items info)).

End CreateVolumeType.

Module DeleteVolumeType.

Definition get_parser (super_parser : argparse.parser) : argparse.parser :=
  (super_parser ++
   [ {| argparse.arg_name := "volume_type";
        argparse.arg_action := argparse.Store;
        argparse.arg_default := VNone;
        argparse.arg_required := false |} ])%list.

Definition take_action (parsed_args : pyval) : M pyval :=
  name_or_id <- getattr parsed_args "volume_type" ;;
  volume_type <- perform (FindResource name_or_id) ;;
  id <- getattr volume_type "id" ;;
  perform (VolumeTypesDelete id) ;;;
  ret VNone.

End DeleteVolumeType.

Module ListVolumeType.

Definition get_parser (super_parser : argparse.parser) : argparse.parser :=
  (super_parser ++
   [ {| argparse.arg_name := "--long";
        argparse.arg_action := argparse.StoreTrue;
        argparse.arg_default := VBool false;
        argparse.arg_required := false |} ])%list.

(** The handler returns the column headers and one row for each volume
    type. *)
Definition take_action
    (get_item_properties :
       pyval -> list string -> list (string * (pyval -> pyval)) -> pyval)
    (format_dict : pyval -> pyval)
    (parsed_args : pyval) : M (list string * list pyval) :=
  long <- getattr parsed_args "long" ;;
  let (columns, column_headers) :=
    if truthy long
    then (["ID"; "Name"; "Description"; "Extra Specs"],
          ["ID"; "Name"; "Description"; "Properties"])
    else (["ID"; "Name"], ["ID"; "Name"]) in
  data <- perform VolumeTypesList ;;
  items <- iterate data ;;
  ret (column_headers,
       map (fun s => get_item_properties s columns
                       [("Extra Specs", format_dict)])
           items).

End ListVolumeType.

Module SetVolumeType.

Definition take_action (parsed_args : pyval) : M pyval :=
  name_or_id <- getattr parsed_args "volume_type" ;;
  volume_type <- perform (FindResource name_or_id) ;;
  name <- getattr parsed_args "name" ;;
  no_changes <-
    (if truthy name then ret false
     else description <- getattr parsed_args "description" ;;
          if truthy description then ret false
          else property <- getattr parsed_args "property" ;;
               ret (negb (truthy property))) ;;
  if no_changes
  then log_error ("No changes requested" ++ newline) ;;;
       ret VNone
  else
    let kwargs : dict := [] in
    name <- getattr parsed_args "name" ;;
    let kwargs := if truthy name then dict_set kwargs "name" name
                  else kwargs in
    description <- getattr parsed_args "description" ;;
    let kwargs := if truthy description
                  then dict_set kwargs "description" description
                  else kwargs in
    (if truthy (VDict kwargs)
     then id <- getattr volume_type "id" ;;
          perform (VolumeTypesUpdate id kwargs)
     else ret VNone) ;;;
    property <- getattr parsed_args "property" ;;
    (if truthy property
     then perform (SetKeys volume_type property)
     else ret VNone) ;;;
    ret VNone.

End SetVolumeType.

Module ShowVolumeType.

Definition get_parser (super_parser : argparse.parser) : argparse.parser :=
  (super_parser ++
   [ {| argparse.arg_name := "volume_type";
        argparse.arg_action := argparse.Store;
        argparse.arg_default := VNone;
        argparse.arg_required := false |} ])%list.

Definition take_action (format_dict : pyval -> pyval) (parsed_args : pyval)
  : M pyval :=
  name_or_id <- getattr parsed_args "volume_type" ;;
  volume_type <- perform (FindResource name_or_id) ;;
  info <- _info volume_type ;;
  popped <- dict_pop info "extra_specs" ;;
  let properties := format_dict (fst popped) in
  let info := dict_update (snd popped) [("properties", properties)] in
  ret (zip_star (sorted_items info)).

End ShowVolumeType.

Module UnsetVolumeType.

Definition get_parser (super_parser : argparse.parser) : argparse.parser :=
  (super_parser ++
   [ {| argparse.arg_name := "volume_type";
        argparse.arg_action := argparse.Store;
        argparse.arg_default := VNone;
        argparse.arg_required := false |};
     {| argparse.arg_name := "--property";
        argparse.arg_action := argparse.Store;
        argparse.arg_default := VList [];
        argparse.arg_required := true |} ])%list.

Definition take_action (parsed_args : pyval) : M pyval :=
  name_or_id <- getattr parsed_args "volume_type" ;;
  volume_type <- perform (FindResource name_or_id) ;;
  property <- getattr parsed_args "property" ;;
  perform (UnsetKeys volume_type property) ;;;
  ret VNone.

End UnsetVolumeType.

(** ** A recorded world

    A small stateless world in the manner of the mocked endpoints of the
    unit tests, used to run the code above on concrete inputs. *)

Module Fixture.

Definition group (id name : string) : pyval :=
  VDict [("id", VStr id); ("name", VStr name)].

(** Three security groups; two of them share the name [web]. *)
Definition groups : list pyval :=
  [group "1" "a"; group "2" "web"; group "3" "web"].

Definition field_is (k s : string) (r : pyval) : bool :=
  match r with
  | VDict d =>
      match dict_get d k with
      | Some (VStr x) => x =? s
      | _ => false
      end
  | _ => false
  end.

(** The groups whose attributes equal every keyword of the search. *)
Definition matching (kwargs : dict) : list pyval :=
  filter
    (fun r =>
       forallb (fun kv => match snd kv with
                          | VStr s => field_is (fst kv) s r
                          | _ => false
                          end) kwargs)
    groups.

(** The answer of [find_one] of [osc_lib.api.BaseAPI], a library outside
    this repository: the single resource that matches is returned; no match
    raises the NotFound of [osc_lib] itself, with the message "none found";
    several matches raise [RuntimeError]. *)
Definition find_one_answer (matches : list pyval) : outcome pyval :=
  match matches with
  | [] => Raise (OscNotFound "none found")
  | [r] => Return r
  | _ => Raise (OtherError "RuntimeError")
  end.

(** The address of a group, as [find] builds it from the collection path
    of the security group methods. *)
Definition str_item_url (g : pyval) : string :=
  match g with
  | VDict d =>
      match dict_get d "id" with
      | Some i => "/" ++ APIv2.url ++ "/" ++ str i
      | None => ""
      end
  | _ => ""
  end.

Definition gold : pyval :=
  VDict [("id", VStr "7"); ("name", VStr "gold"); ("description", VNone);
         ("is_public", VBool true); ("extra_specs", VDict [])].

Definition server : world :=
  fun _ c =>
    match c with
    | Request method url json =>
        if method =? "GET" then
          match find (fun g => str_item_url g =? url) groups with
          | Some g => Return (VDict [("security_group", g)])
          | None => Raise KsaNotFound
          end
        else
          match json with
          | Some body => Return body
          | None => Return VNone
          end
    | FindOne _ kwargs => find_one_answer (matching kwargs)
    | ListCall _ _ => Return (VDict [("security_groups", VList groups)])
    | VolumeTypesCreate name description _ =>
        Return (VDict [("id", VStr "7"); ("name", name);
                       ("description", description);
                       ("is_public", VBool true); ("extra_specs", VDict [])])
    | VolumeTypesList => Return (VList [gold])
    | SetKeys _ metadata => Return metadata
    | FindResource name_or_id =>
        match name_or_id with
        | VStr s => if (s =? "gold") || (s =? "7") then Return gold
                    else Raise (OscNotFound (s ++ " not found"))
        | _ => Raise (OscNotFound (str name_or_id ++ " not found"))
        end
    | _ => Return VNone
    end.

(** The attribute a column title stands for: the title in lower case, with
    underscores for spaces ([Extra Specs] is [extra_specs]). *)
Definition lower (c : ascii) : ascii :=
  let n := nat_of_ascii c in
  if (65 <=? n)%nat && (n <=? 90)%nat then ascii_of_nat (n + 32) else c.

Fixpoint attribute_name (field : string) : string :=
  match field with
  | EmptyString => EmptyString
  | String c rest =>
      String (if Ascii.eqb c " " then "_"%char else lower c)
             (attribute_name rest)
  end.

(** A stand-in for [utils.get_item_properties]: the attribute of the
    resource for each column, through the formatter of the column. *)
Definition attribute_row (item : pyval) (fields : list string)
    (formatters : list (string * (pyval -> pyval))) : pyval :=
  VList
    (map (fun field =>
            let data := match item with
                        | VDict d => match dict_get d (attribute_name field) with
                                     | Some x => x
                                     | None => VStr ""
                                     end
                        | _ => VStr ""
                        end in
            match find (fun f => fst f =? field) formatters with
            | Some f => snd f data
            | None => data
            end)
         fields).

End Fixture.

(** [format_dict] of [openstackclient/common/utils.py], which is not under
    the sources: a mapping is formatted to the string of its pairs
    [key='value'], in ascending order of the keys, separated by a comma and
    a space.  The commands apply it to a mapping; on anything else, where
    Python raises, the model gives [None]. *)
Definition format_dict (data : pyval) : pyval :=
  match data with
  | VDict d =>
      VStr (String.concat ", "
              (map (fun kv => fst kv ++ "='" ++ str (snd kv) ++ "'")
                   (sorted_items d)))
  | _ => VNone
  end.

(** The needle occurs in the haystack, as a test. *)
Fixpoint occurs (needle haystack : string) : bool :=
  String.prefix needle haystack
  || match haystack with
     | EmptyString => false
     | String _ rest => occurs needle rest
     end.

(** The needle occurs in the haystack. *)
Definition contains (needle haystack : string) : Prop :=
  exists before after, haystack = before ++ needle ++ after.

(** The direct fetch of [find]: [GET /<path>/<value>]. *)
Definition direct_fetch (path value : string) : call :=
  Request "GET" ("/" ++ path ++ "/" ++ value) None.

(** The search filters [security_group_list] keeps: those whose value is
    true. *)
Definition kept_filters (search_opts : option dict) : dict :=
  match search_opts with
  | Some opts => filter (fun kv => truthy (snd kv)) opts
  | None => []
  end.

(** A computation extends the trace it starts from. *)
Definition extends {A} (c : M A) : Prop :=
  forall w tr, exists rest, snd (c w tr) = (tr ++ rest)%list.

(** The argument string of the last occurrence of an argument on the command
    line, if it occurs. *)
Fixpoint last_value (name : string) (cmdline : list (string * string))
  : option string :=
  match cmdline with
  | [] => None
  | (n, raw) :: rest =>
      match last_value name rest with
      | Some later => Some later
      | None => if n =? name then Some raw else None
      end
  end.

(** Whether an argument occurs on the command line. *)
Definition supplied (name : string) (cmdline : list (string * string)) : bool :=
  existsb (fun occurrence => fst occurrence =? name) cmdline.

(** The calls of the fallback search of [find]. *)
Definition is_list_query (c : call) : bool :=
  match c with
  | FindOne _ _ | ListCall _ _ => true
  | _ => false
  end.

(** The calls that reach the remote service: all but the log messages. *)
Definition is_network_call (c : call) : bool :=
  match c with
  | LogError _ => false
  | _ => true
  end.

(** ** Further recorded worlds

    Variations of the recorded world in which one collaborator answers
    differently. *)

Module Worlds.

(** The transport fails with an error that is neither NotFound nor
    BadRequest. *)
Definition transport_error : world :=
  fun tr c =>
    match c with
    | Request _ _ _ => Raise (OtherError "ConnectionError")
    | _ => Fixture.server tr c
    end.

(** Every request is answered with the empty mapping. *)
Definition empty_body : world :=
  fun tr c =>
    match c with
    | Request _ _ _ => Return (VDict [])
    | _ => Fixture.server tr c
    end.

(** Every request is answered with a record that has no envelope. *)
Definition bare_record : world :=
  fun tr c =>
    match c with
    | Request _ _ _ => Return (Fixture.group "1" "a")
    | _ => Fixture.server tr c
    end.

(** Every request is answered with a list. *)
Definition list_body : world :=
  fun tr c =>
    match c with
    | Request _ _ _ => Return (VList [Fixture.group "1" "a"])
    | _ => Fixture.server tr c
    end.

(** Every request is answered with the envelope of [null]. *)
Definition null_record : world :=
  fun tr c =>
    match c with
    | Request _ _ _ => Return (VDict [("security_group", VNone)])
    | _ => Fixture.server tr c
    end.

(** The collection does not exist: the direct fetch and the listing of the
    fallback search are both answered with the NotFound of the transport. *)
Definition missing_collection : world :=
  fun tr c =>
    match c with
    | Request _ _ _ => Raise KsaNotFound
    | FindOne _ _ => Raise KsaNotFound
    | _ => Fixture.server tr c
    end.

(** The volume types are listed through a parser that has an option of its
    own, as the parser of a cliff lister has. *)
Definition lister_parser : argparse.parser :=
  [ {| argparse.arg_name := "--format";
       argparse.arg_action := argparse.Store;
       argparse.arg_default := VStr "table";
       argparse.arg_required := false |} ].

(** [create] answers with the body it was sent. *)
Definition echo : world :=
  fun tr c =>
    match c with
    | CreateCall _ json => Return json
    | _ => Fixture.server tr c
    end.

(** The volume service creates types whose record has no [extra_specs]. *)
Definition no_extra_specs : world :=
  fun tr c =>
    match c with
    | VolumeTypesCreate name _ _ =>
        Return (VDict [("id", VStr "7"); ("name", name)])
    | _ => Fixture.server tr c
    end.

(** The volume service refuses every update. *)
Definition update_fails : world :=
  fun tr c =>
    match c with
    | VolumeTypesUpdate _ _ => Raise (OtherError "ClientException")
    | _ => Fixture.server tr c
    end.

End Worlds.

(** ** Properties *)

Example find_by_id :
  APIv2.find APIv2.url "2" (Some "name") Fixture.server []
  = (Return (Fixture.group "2" "web"),
     [Request "GET" "//os-security-groups/2" None]).
Proof. vm_compute. reflexivity. Qed.

(** *** Values and dictionaries *)

Lemma size_pos (v : pyval) : 0 < size v.
Proof. destruct v; simpl; lia. Qed.

(** A value is never one of its own envelopes. *)
Lemma envelope_neq (k : string) (v : pyval) : v <> VDict [(k, v)].
Proof.
  intros H. apply (f_equal size) in H. simpl in H. lia.
Qed.

Lemma dict_get_set (d : dict) (k k' : string) (v : pyval) :
  dict_get (dict_set d k v) k'
  = if k =? k' then Some v else dict_get d k'.
Proof.
  induction d as [|[k0 v0] d IH]; simpl.
  - destruct (k =? k'); reflexivity.
  - destruct (String.eqb_spec k0 k) as [->|Hne]; simpl.
    + destruct (k =? k'); reflexivity.
    + rewrite IH. destruct (String.eqb_spec k k') as [->|Hne'].
      * apply String.eqb_neq in Hne. rewrite Hne. reflexivity.
      * reflexivity.
Qed.

Lemma dict_has_In (d : dict) (k : string) :
  dict_has d k = true <-> In k (dict_keys d).
Proof.
  unfold dict_has, dict_keys.
  induction d as [|[k0 v0] d IH]; simpl.
  - split; [discriminate | tauto].
  - destruct (String.eqb_spec k0 k) as [->|Hne].
    + split; auto.
    + rewrite IH. split; [auto | intros [?|?]; [contradiction | assumption]].
Qed.

Lemma dict_set_keys (d : dict) (k : string) (v : pyval) :
  dict_has d k = true -> dict_keys (dict_set d k v) = dict_keys d.
Proof.
  unfold dict_has, dict_keys.
  induction d as [|[k0 v0] d IH]; simpl; [discriminate|].
  destruct (String.eqb_spec k0 k) as [->|Hne]; simpl; [reflexivity|].
  intros H. rewrite IH by assumption. reflexivity.
Qed.

Lemma dict_set_In (d : dict) (k : string) (v : pyval) :
  In (k, v) (dict_set d k v).
Proof.
  induction d as [|[k0 v0] d IH]; simpl; [auto|].
  destruct (String.eqb_spec k0 k) as [->|Hne]; simpl; auto.
Qed.

Lemma dict_set_keys_incl (d : dict) (k : string) (v : pyval) (x : string) :
  In x (dict_keys (dict_set d k v)) -> x = k \/ In x (dict_keys d).
Proof.
  unfold dict_keys.
  induction d as [|[k0 v0] d IH]; simpl.
  - intros [?|[]]; auto.
  - destruct (String.eqb_spec k0 k) as [->|Hne]; simpl.
    + intros [?|?]; auto.
    + intros [?|?]; auto. destruct (IH H); auto.
Qed.

Lemma dict_remove_keys (d : dict) (k : string) :
  ~ In k (dict_keys (dict_remove d k)).
Proof.
  unfold dict_keys, dict_remove. rewrite in_map_iff.
  intros [[k0 v0] [Hk Hin]]. simpl in Hk. subst k0.
  apply filter_In in Hin. destruct Hin as [_ Hf]. simpl in Hf.
  rewrite String.eqb_refl in Hf. discriminate.
Qed.

(** The operations keep the keys of a dictionary distinct. *)
Lemma dict_set_NoDup (d : dict) (k : string) (v : pyval) :
  NoDup (dict_keys d) -> NoDup (dict_keys (dict_set d k v)).
Proof.
  unfold dict_keys.
  induction d as [|[k0 v0] d IH]; simpl; intros Hnd.
  - constructor; [tauto | constructor].
  - inversion Hnd as [|? ? Hnotin Hnd']; subst.
    destruct (String.eqb_spec k0 k) as [->|Hne]; simpl.
    + constructor; assumption.
    + constructor; [|apply IH; assumption].
      intros Hin. apply dict_set_keys_incl in Hin.
      destruct Hin as [Heq|Hin]; [congruence | contradiction].
Qed.

Lemma dict_remove_NoDup (d : dict) (k : string) :
  NoDup (dict_keys d) -> NoDup (dict_keys (dict_remove d k)).
Proof.
  unfold dict_keys, dict_remove.
  induction d as [|[k0 v0] d IH]; simpl; intros Hnd; [constructor|].
  inversion Hnd as [|? ? Hnotin Hnd']; subst.
  destruct (k0 =? k); simpl; [apply IH; assumption|].
  constructor; [|apply IH; assumption].
  rewrite in_map_iff. intros [[k1 v1] [Hk Hin]]. simpl in Hk. subst k1.
  apply filter_In in Hin. destruct Hin as [Hin _].
  apply Hnotin. apply in_map_iff. exists (k0, v1). split; [reflexivity|assumption].
Qed.

Lemma dict_update_NoDup (other d : dict) :
  NoDup (dict_keys d) -> NoDup (dict_keys (dict_update d other)).
Proof.
  unfold dict_update. revert d.
  induction other as [|[k v] other IH]; intros d Hnd; simpl; [assumption|].
  apply IH. apply dict_set_NoDup. assumption.
Qed.

(** *** The monad *)

Lemma getitem_trace (v : pyval) (k : string) (w : world) (tr : trace) :
  snd (getitem v k w tr) = tr.
Proof.
  unfold getitem. destruct v; try reflexivity.
  destruct (dict_get entries k); reflexivity.
Qed.

Ltac run := unfold bind, try_except, perform, ret, raise in *; simpl in *.

(** *** [APIv2.find] *)

(** C1. When the identifier is the ID of an existing resource, that is when
    the remote service answers the direct fetch [GET /<path>/<identifier>]
    with the envelope of the record, [find] returns the record and the direct
    fetch is the only call it makes: no list-and-filter query is issued. *)
Theorem find_by_id_direct_fetch_only
    (w : world) (tr : trace) (path value : string) (attr : option string)
    (key : string) (record : pyval) :
  w tr (Request "GET" ("/" ++ path ++ "/" ++ value) None)
    = Return (VDict [(key, record)]) ->
  exists calls,
    APIv2.find path value attr w tr = (Return record, (tr ++ calls)%list)
    /\ calls = [Request "GET" ("/" ++ path ++ "/" ++ value) None]
    /\ forallb (fun c => negb (is_list_query c)) calls = true.
Proof.
  intros H. eexists. split; [|split; [reflexivity|reflexivity]].
  unfold APIv2.find, APIv2._request. run. rewrite H. simpl.
  unfold getitem. simpl. rewrite String.eqb_refl. reflexivity.
Qed.

Lemma find_by_id_direct_fetch_only_witness :
  exists calls,
    APIv2.find APIv2.url "1" (Some "name") Fixture.server []
      = (Return (Fixture.group "1" "a"), ([] ++ calls)%list)
    /\ calls = [Request "GET" ("/" ++ APIv2.url ++ "/" ++ "1") None]
    /\ forallb (fun c => negb (is_list_query c)) calls = true.
Proof.
  apply (find_by_id_direct_fetch_only Fixture.server [] APIv2.url "1"
           (Some "name") "security_group" (Fixture.group "1" "a")).
  reflexivity.
Defined.

(** C5. When the body of the direct fetch is a mapping with a single key,
    [find] returns the value stored under that key, which is not the
    enclosing mapping. *)
Theorem find_unwraps_single_key_mapping
    (w : world) (tr : trace) (path value : string) (attr : option string)
    (body : pyval) (key : string) (inner : pyval) :
  w tr (Request "GET" ("/" ++ path ++ "/" ++ value) None) = Return body ->
  body = VDict [(key, inner)] ->
  fst (APIv2.find path value attr w tr) = Return inner
  /\ dict_get [(key, inner)] key = Some inner
  /\ inner <> body.
Proof.
  intros H ->. split; [|split].
  - unfold APIv2.find, APIv2._request. run. rewrite H. simpl.
    unfold getitem. simpl. rewrite String.eqb_refl. reflexivity.
  - simpl. rewrite String.eqb_refl. reflexivity.
  - apply envelope_neq.
Qed.

Lemma find_unwraps_single_key_mapping_witness :
  fst (APIv2.find APIv2.url "3" None Fixture.server [])
    = Return (Fixture.group "3" "web")
  /\ dict_get [("security_group", Fixture.group "3" "web")] "security_group"
     = Some (Fixture.group "3" "web")
  /\ Fixture.group "3" "web"
     <> VDict [("security_group", Fixture.group "3" "web")].
Proof.
  apply (find_unwraps_single_key_mapping Fixture.server [] APIv2.url "3" None
           (VDict [("security_group", Fixture.group "3" "web")])
           "security_group" (Fixture.group "3" "web")).
  - reflexivity.
  - reflexivity.
Defined.

(** C2. In the fallback path (the direct fetch failed with NotFound or
    BadRequest), when the search for [attr = value] matches no resource or
    more than one, [find] fails; and a record [find] returns through the
    fallback is the single resource the search matched.  [matches] is the list
    of the resources matching the search, and [find_one] returns a record
    exactly when that list holds one resource. *)
Theorem find_fallback_requires_single_match
    (w : world) (tr : trace) (path value attr : string)
    (e0 : exn) (matches : list pyval) :
  w tr (Request "GET" ("/" ++ path ++ "/" ++ value) None) = Raise e0 ->
  APIv2.not_found_or_bad_request e0 = true ->
  (forall r,
      w (tr ++ [Request "GET" ("/" ++ path ++ "/" ++ value) None])%list
        (FindOne path [(attr, VStr value)]) = Return r
      <-> matches = [r]) ->
  (length matches <> 1 ->
   exists e, fst (APIv2.find path value (Some attr) w tr) = Raise e)
  /\ (forall r, fst (APIv2.find path value (Some attr) w tr) = Return r ->
                matches = [r]).
Proof.
  intros Hget Hcatch Hone.
  unfold APIv2.find, APIv2._request, APIv2.find_one. run.
  rewrite Hget. simpl. rewrite Hcatch.
  destruct (w _ (FindOne path [(attr, VStr value)])) as [r|e] eqn:Hfb; simpl.
  - split.
    + intros Hlen. exfalso. apply Hlen.
      rewrite (proj1 (Hone r) eq_refl). reflexivity.
    + intros r' Hr. inversion Hr; subst r'. apply Hone. reflexivity.
  - split.
    + intros _. destruct (APIv2.not_found e); simpl; eexists; reflexivity.
    + intros r' Hr. destruct (APIv2.not_found e); simpl in Hr; discriminate.
Qed.

Lemma find_fallback_requires_single_match_witness :
  (length [Fixture.group "2" "web"; Fixture.group "3" "web"] <> 1 ->
   exists e,
     fst (APIv2.find APIv2.url "web" (Some "name") Fixture.server [])
     = Raise e)
  /\ (forall r,
        fst (APIv2.find APIv2.url "web" (Some "name") Fixture.server [])
        = Return r ->
        [Fixture.group "2" "web"; Fixture.group "3" "web"] = [r]).
Proof.
  apply (find_fallback_requires_single_match Fixture.server [] APIv2.url
           "web" "name" KsaNotFound).
  - reflexivity.
  - reflexivity.
  - intros r. vm_compute. split; intros H; discriminate H.
Defined.

(** The handler of the fallback: when [find_one] itself fails with the
    NotFound of the transport (the listing request is answered "not found"),
    [find] raises the NotFound of [osc_lib] with the message
    ["<identifier> not found"], which contains the identifier. *)
Theorem find_translates_transport_not_found
    (w : world) (tr : trace) (path value attr : string) (e0 : exn) :
  w tr (Request "GET" ("/" ++ path ++ "/" ++ value) None) = Raise e0 ->
  APIv2.not_found_or_bad_request e0 = true ->
  w (tr ++ [Request "GET" ("/" ++ path ++ "/" ++ value) None])%list
    (FindOne path [(attr, VStr value)]) = Raise KsaNotFound ->
  exists msg,
    APIv2.find path value (Some attr) w tr
    = (Raise (OscNotFound msg),
       (tr ++ [Request "GET" ("/" ++ path ++ "/" ++ value) None;
               FindOne path [(attr, VStr value)]])%list)
    /\ msg = value ++ " not found"
    /\ contains value msg.
Proof.
  intros Hget Hcatch Hfb. exists (value ++ " not found").
  split; [|split; [reflexivity|]].
  - unfold APIv2.find, APIv2._request, APIv2.find_one. run.
    rewrite Hget. simpl. rewrite Hcatch, Hfb. simpl.
    rewrite <- app_assoc. reflexivity.
  - exists "", " not found". reflexivity.
Qed.

Lemma find_translates_transport_not_found_witness :
  exists msg,
    APIv2.find APIv2.url "nope" (Some "name") Worlds.missing_collection []
    = (Raise (OscNotFound msg),
       ([] ++ [Request "GET" ("/" ++ APIv2.url ++ "/" ++ "nope") None;
               FindOne APIv2.url [("name", VStr "nope")]])%list)
    /\ msg = "nope" ++ " not found"
    /\ contains "nope" msg.
Proof.
  apply (find_translates_transport_not_found Worlds.missing_collection []
           APIv2.url "nope" "name" KsaNotFound); reflexivity.
Defined.

Lemma prefix_app (needle rest : string) :
  String.prefix needle (needle ++ rest) = true.
Proof.
  induction needle as [|c needle IH]; simpl.
  - destruct rest; reflexivity.
  - destruct (ascii_dec c c) as [_|Hne]; [exact IH | congruence].
Qed.

Lemma contains_occurs (needle haystack : string) :
  contains needle haystack -> occurs needle haystack = true.
Proof.
  intros [before [rest ->]].
  induction before as [|c before IH]; simpl.
  - assert (H : occurs needle (needle ++ rest)
                = String.prefix needle (needle ++ rest)
                  || match (needle ++ rest) with
                     | EmptyString => false
                     | String _ r => occurs needle r
                     end)
      by (destruct (needle ++ rest); reflexivity).
    rewrite H, prefix_app. reflexivity.
  - rewrite IH. apply orb_true_r.
Qed.

(** C3. When the identifier matches no ID in the direct fetch (NotFound or
    BadRequest) and the fallback search matches no resource, [find_one]
    raises the NotFound of [osc_lib], "none found", which the handler of
    [find] does not catch (it names the NotFound of the transport): [find]
    raises NotFound with the message "none found", whatever the identifier,
    so the message contains the identifier only if "none found" does. *)
Theorem find_no_match_reports_none_found
    (w : world) (tr : trace) (path value attr : string) (e0 : exn) :
  w tr (Request "GET" ("/" ++ path ++ "/" ++ value) None) = Raise e0 ->
  APIv2.not_found_or_bad_request e0 = true ->
  w (tr ++ [Request "GET" ("/" ++ path ++ "/" ++ value) None])%list
    (FindOne path [(attr, VStr value)]) = Raise (OscNotFound "none found") ->
  APIv2.find path value (Some attr) w tr
  = (Raise (OscNotFound "none found"),
     (tr ++ [Request "GET" ("/" ++ path ++ "/" ++ value) None;
             FindOne path [(attr, VStr value)]])%list)
  /\ (occurs value "none found" = false -> ~ contains value "none found").
Proof.
  intros Hget Hcatch Hfb. split.
  - unfold APIv2.find, APIv2._request, APIv2.find_one. run.
    rewrite Hget. simpl. rewrite Hcatch, Hfb. simpl.
    rewrite <- app_assoc. reflexivity.
  - intros Hocc Hc. apply contains_occurs in Hc. congruence.
Qed.

Lemma find_no_match_reports_none_found_witness :
  APIv2.find APIv2.url "sg99" (Some "name") Fixture.server []
  = (Raise (OscNotFound "none found"),
     ([] ++ [Request "GET" ("/" ++ APIv2.url ++ "/" ++ "sg99") None;
             FindOne APIv2.url [("name", VStr "sg99")]])%list)
  /\ ~ contains "sg99" "none found".
Proof.
  destruct (find_no_match_reports_none_found Fixture.server [] APIv2.url
              "sg99" "name" KsaNotFound eq_refl eq_refl eq_refl) as [H1 H2].
  split; [exact H1 | apply H2; reflexivity].
Defined.

(** *** Security groups *)

(** C8. [security_group_list] with an empty search filter mapping builds the
    same request parameters as with no search filter: both make the one call
    [list(url, **params)] with the same [params], and give the same result in
    every world. *)
Theorem security_group_list_empty_search_opts
    (limit marker : pyval) (w : world) (tr : trace) :
  (exists params,
      snd (APIv2.security_group_list limit marker (Some []) w tr)
      = (tr ++ [ListCall APIv2.url params])%list
      /\ snd (APIv2.security_group_list limit marker None w tr)
         = (tr ++ [ListCall APIv2.url params])%list)
  /\ APIv2.security_group_list limit marker (Some []) w tr
     = APIv2.security_group_list limit marker None w tr.
Proof.
  split; [|reflexivity].
  unfold APIv2.security_group_list, APIv2.list_. simpl filter.
  eexists. split.
  - unfold bind, perform. destruct (w tr _); simpl; [|reflexivity].
    rewrite getitem_trace. reflexivity.
  - unfold bind, perform. destruct (w tr _); simpl; [|reflexivity].
    rewrite getitem_trace. reflexivity.
Qed.

Lemma merge_params_keys (params d : dict) :
  dict_keys (APIv2.merge_params d params) = dict_keys d.
Proof.
  unfold APIv2.merge_params. revert d.
  induction params as [|[k v] params IH]; intros d; simpl; [reflexivity|].
  rewrite IH. destruct (dict_has d k) eqn:Hk; [|reflexivity].
  apply dict_set_keys. assumption.
Qed.

Lemma dict_has_keys (d d' : dict) (k : string) :
  dict_keys d = dict_keys d' -> dict_has d k = dict_has d' k.
Proof.
  intros H. destruct (dict_has d' k) eqn:H'.
  - apply dict_has_In. rewrite H. apply dict_has_In. assumption.
  - destruct (dict_has d k) eqn:H''; [|reflexivity].
    apply dict_has_In in H''. rewrite H in H''. apply dict_has_In in H''.
    congruence.
Qed.

Lemma merge_params_untouched (params d : dict) (k : string) :
  ~ In k (dict_keys params) ->
  dict_get (APIv2.merge_params d params) k = dict_get d k.
Proof.
  unfold APIv2.merge_params. revert d.
  induction params as [|[k0 v0] params IH]; intros d Hk; simpl;
    [reflexivity|].
  simpl in Hk. rewrite IH by tauto.
  destruct (dict_has d k0); [|reflexivity].
  rewrite dict_get_set.
  destruct (String.eqb_spec k0 k) as [->|Hne]; [tauto | reflexivity].
Qed.

Lemma merge_params_overwrites (params d : dict) (k : string) (v : pyval) :
  NoDup (dict_keys params) -> In (k, v) params -> dict_has d k = true ->
  dict_get (APIv2.merge_params d params) k = Some v.
Proof.
  revert d.
  induction params as [|[k0 v0] params IH]; intros d Hnd Hin Hk;
    [contradiction|].
  simpl in Hnd. inversion Hnd as [|? ? Hnotin Hnd']; subst.
  destruct Hin as [Heq|Hin].
  - inversion Heq; subst k0 v0.
    change (dict_get (APIv2.merge_params
                        (if dict_has d k then dict_set d k v else d) params) k
            = Some v).
    rewrite Hk, merge_params_untouched by assumption.
    rewrite dict_get_set, String.eqb_refl. reflexivity.
  - change (dict_get (APIv2.merge_params
                        (if dict_has d k0 then dict_set d k0 v0 else d)
                        params) k
            = Some v).
    apply IH; try assumption.
    destruct (dict_has d k0) eqn:Hk0; [|assumption].
    rewrite (dict_has_keys _ d); [assumption|].
    apply dict_set_keys. assumption.
Qed.

Lemma merge_params_drops (params d : dict) (k : string) :
  dict_has d k = false -> dict_get (APIv2.merge_params d params) k = None.
Proof.
  intros Hk.
  assert (H : dict_has (APIv2.merge_params d params) k = false).
  { rewrite (dict_has_keys _ d); [assumption | apply merge_params_keys]. }
  unfold dict_has in H.
  destruct (dict_get (APIv2.merge_params d params) k);
    [discriminate | reflexivity].
Qed.

(** C4. [security_group_set] sends, in the envelope of the PUT request, the
    fetched record in which every supplied key that the record already has
    holds the supplied value, and to which no key is added: a supplied key
    the record lacks is dropped.  Fetching [{"id":"1","name":"a"}] and
    setting [{"bogus":"x","name":"b"}] gives the payload
    [{"id":"1","name":"b"}]. *)
Theorem security_group_set_merges_present_keys
    (w : world) (tr tr1 : trace) (security_group : string)
    (params record : dict) :
  APIv2.find APIv2.url security_group (Some "name") w tr
    = (Return (VDict record), tr1) ->
  dict_has record "id" = true ->
  NoDup (dict_keys params) ->
  (exists payload id,
      snd (APIv2.security_group_set security_group params w tr)
      = (tr1 ++ [Request "PUT" ("/" ++ APIv2.url ++ "/" ++ str id)
                   (Some (VDict [("security_group", VDict payload)]))])%list
      /\ payload = APIv2.merge_params record params
      /\ dict_keys payload = dict_keys record
      /\ (forall k v, In (k, v) params -> dict_has record k = false ->
                      dict_get payload k = None)
      /\ (forall k v, In (k, v) params -> dict_has record k = true ->
                      dict_get payload k = Some v)
      /\ (forall k, ~ In k (dict_keys params) ->
                    dict_get payload k = dict_get record k))
  /\ APIv2.merge_params [("id", VStr "1"); ("name", VStr "a")]
                        [("bogus", VStr "x"); ("name", VStr "b")]
     = [("id", VStr "1"); ("name", VStr "b")].
Proof.
  intros Hfind Hid Hnd. split; [|reflexivity].
  assert (Hid' : dict_has (APIv2.merge_params record params) "id" = true).
  { rewrite (dict_has_keys _ record); [assumption | apply merge_params_keys]. }
  unfold dict_has in Hid'.
  destruct (dict_get (APIv2.merge_params record params) "id") as [id|] eqn:Hget;
    [|discriminate].
  exists (APIv2.merge_params record params), id.
  split; [|split; [reflexivity|split; [apply merge_params_keys|split; [|split]]]].
  - unfold APIv2.security_group_set, bind. rewrite Hfind.
    unfold getitem at 1. rewrite Hget.
    unfold ret, APIv2._request, perform.
    destruct (w tr1 _); [|reflexivity].
    apply getitem_trace.
  - intros k v _ Hk. apply merge_params_drops. assumption.
  - intros k v Hin Hk. apply merge_params_overwrites; assumption.
  - intros k Hk. apply merge_params_untouched. assumption.
Qed.

Lemma security_group_set_merges_present_keys_witness :
  (exists payload id,
      snd (APIv2.security_group_set "1"
             [("bogus", VStr "x"); ("name", VStr "b")] Fixture.server [])
      = ([Request "GET" "//os-security-groups/1" None]
           ++ [Request "PUT" ("/" ++ APIv2.url ++ "/" ++ str id)
                 (Some (VDict [("security_group", VDict payload)]))])%list
      /\ payload
         = APIv2.merge_params [("id", VStr "1"); ("name", VStr "a")]
                              [("bogus", VStr "x"); ("name", VStr "b")]
      /\ dict_keys payload = dict_keys [("id", VStr "1"); ("name", VStr "a")]
      /\ (forall k v, In (k, v) [("bogus", VStr "x"); ("name", VStr "b")] ->
                      dict_has [("id", VStr "1"); ("name", VStr "a")] k = false ->
                      dict_get payload k = None)
      /\ (forall k v, In (k, v) [("bogus", VStr "x"); ("name", VStr "b")] ->
                      dict_has [("id", VStr "1"); ("name", VStr "a")] k = true ->
                      dict_get payload k = Some v)
      /\ (forall k, ~ In k (dict_keys [("bogus", VStr "x"); ("name", VStr "b")]) ->
                    dict_get payload k
                    = dict_get [("id", VStr "1"); ("name", VStr "a")] k))
  /\ APIv2.merge_params [("id", VStr "1"); ("name", VStr "a")]
                        [("bogus", VStr "x"); ("name", VStr "b")]
     = [("id", VStr "1"); ("name", VStr "b")].
Proof.
  apply (security_group_set_merges_present_keys Fixture.server []
           [Request "GET" "//os-security-groups/1" None] "1"
           [("bogus", VStr "x"); ("name", VStr "b")]
           [("id", VStr "1"); ("name", VStr "a")]).
  - reflexivity.
  - reflexivity.
  - simpl. repeat constructor; simpl; intuition discriminate.
Defined.

(** The request [security_group_set] sends in the recorded world. *)
Example security_group_set_put_payload :
  snd (APIv2.security_group_set "1"
         [("bogus", VStr "x"); ("name", VStr "b")] Fixture.server [])
  = [Request "GET" "//os-security-groups/1" None;
     Request "PUT" "//os-security-groups/1"
       (Some (VDict [("security_group",
                      VDict [("id", VStr "1"); ("name", VStr "b")])]))].
Proof. reflexivity. Qed.

(** *** Volume type commands *)

Lemma insert_item_perm (kv : string * pyval) (l : dict) :
  Permutation (insert_item kv l) (kv :: l).
Proof.
  induction l as [|x l IH]; simpl; [reflexivity|].
  destruct (String.leb (fst kv) (fst x)); [reflexivity|].
  rewrite IH. apply perm_swap.
Qed.

Lemma sorted_items_perm (d : dict) : Permutation (sorted_items d) d.
Proof.
  induction d as [|kv d IH]; simpl; [reflexivity|].
  rewrite insert_item_perm. constructor. assumption.
Qed.

(** The items come out in ascending order of their keys. *)
Lemma insert_item_sorted (kv : string * pyval) (l : dict) :
  Sorted key_le l -> Sorted key_le (insert_item kv l).
Proof.
  induction l as [|x l IH]; simpl; intros Hs.
  - repeat constructor.
  - destruct (String.leb (fst kv) (fst x)) eqn:Hle.
    + constructor; [assumption | constructor; exact Hle].
    + inversion Hs as [|? ? Hs' Hhd]; subst.
      constructor; [apply IH; assumption|].
      assert (Hx : key_le x kv).
      { destruct (String.leb_total (fst x) (fst kv)) as [H|H];
          [exact H | congruence]. }
      destruct l as [|y l]; simpl.
      * constructor. exact Hx.
      * destruct (String.leb (fst kv) (fst y)).
        -- constructor. exact Hx.
        -- inversion Hhd; subst. constructor. assumption.
Qed.

Lemma sorted_items_sorted (d : dict) : Sorted key_le (sorted_items d).
Proof.
  induction d as [|kv d IH]; simpl; [constructor|].
  apply insert_item_sorted. assumption.
Qed.

Lemma sorted_items_NoDup (d : dict) :
  NoDup (dict_keys d) -> NoDup (dict_keys (sorted_items d)).
Proof.
  unfold dict_keys. intros H.
  apply (Permutation_NoDup
           (Permutation_sym (Permutation_map fst (sorted_items_perm d)))).
  assumption.
Qed.

Lemma zip_star_nonempty (rows : dict) :
  rows <> [] ->
  zip_star rows
  = VList [VList (map (fun kv => VStr (fst kv)) rows); VList (map snd rows)].
Proof. destruct rows; [congruence | reflexivity]. Qed.

Lemma dict_set_In_other (d : dict) (k k' : string) (v v' : pyval) :
  k <> k' -> (In (k, v) (dict_set d k' v') <-> In (k, v) d).
Proof.
  intros Hne.
  induction d as [|[k0 v0] d IH]; simpl.
  - split; [intros [H|[]]; inversion H; congruence | tauto].
  - destruct (String.eqb_spec k0 k') as [->|Hne0]; simpl.
    + split; intros [H|H]; auto; inversion H; congruence.
    + rewrite IH. reflexivity.
Qed.

Lemma dict_remove_In (d : dict) (k x : string) (v : pyval) :
  In (k, v) (dict_remove d x) <-> In (k, v) d /\ k <> x.
Proof.
  unfold dict_remove. rewrite filter_In. simpl.
  rewrite negb_true_iff, String.eqb_neq. reflexivity.
Qed.

Lemma sorted_items_In (d : dict) (kv : string * pyval) :
  In kv (sorted_items d) <-> In kv d.
Proof.
  split; intros H.
  - apply (Permutation_in _ (sorted_items_perm d)). exact H.
  - apply (Permutation_in _ (Permutation_sym (sorted_items_perm d))). exact H.
Qed.

(** The rows displayed for a record: [extra_specs] taken out, [properties]
    put in, everything else as in the record, in ascending order. *)
Lemma display_rows_fields (info : dict) (properties : pyval) (k : string)
    (v : pyval) :
  k <> "extra_specs" -> k <> "properties" ->
  (In (k, v)
      (sorted_items
         (dict_set (dict_remove info "extra_specs") "properties" properties))
   <-> In (k, v) info).
Proof.
  intros He Hp.
  rewrite sorted_items_In, (dict_set_In_other _ _ _ _ _ Hp), dict_remove_In.
  tauto.
Qed.

(** C6, as the code has it.  Creating a volume type with the property
    [foo=bar] (the property call hands the mapping back) makes the create
    call, then the property call, and displays a single record, keys and
    values in ascending order of the keys: the created record without
    [extra_specs] and with the field [properties] equal to the formatted
    string [foo='bar'], which [format_dict] makes of the mapping
    [{"foo": "bar"}]. *)
Theorem create_volume_type_shows_formatted_properties
    (w : world) (tr : trace) (parsed_args info : dict)
    (name description public private : pyval) :
  dict_get parsed_args "name" = Some name ->
  dict_get parsed_args "description" = Some description ->
  dict_get parsed_args "public" = Some public ->
  dict_get parsed_args "private" = Some private ->
  dict_get parsed_args "property" = Some (VDict [("foo", VStr "bar")]) ->
  w tr (VolumeTypesCreate name description
          (if truthy private then [("is_public", VBool false)]
           else if truthy public then [("is_public", VBool true)]
           else []))
    = Return (VDict info) ->
  dict_has info "extra_specs" = true ->
  w (tr ++ [VolumeTypesCreate name description
              (if truthy private then [("is_public", VBool false)]
               else if truthy public then [("is_public", VBool true)]
               else [])])%list
    (SetKeys (VDict info) (VDict [("foo", VStr "bar")]))
    = Return (VDict [("foo", VStr "bar")]) ->
  exists rows,
    CreateVolumeType.take_action format_dict (VDict parsed_args) w tr
    = (Return (VList [VList (map (fun kv => VStr (fst kv)) rows);
                      VList (map snd rows)]),
       (tr ++ [VolumeTypesCreate name description
                 (if truthy private then [("is_public", VBool false)]
                  else if truthy public then [("is_public", VBool true)]
                  else []);
               SetKeys (VDict info) (VDict [("foo", VStr "bar")])])%list)
    /\ rows = sorted_items
                (dict_set (dict_remove info "extra_specs") "properties"
                          (VStr "foo='bar'"))
    /\ In ("properties", VStr "foo='bar'") rows
    /\ ~ In "extra_specs" (dict_keys rows)
    /\ (forall k v, k <> "extra_specs" -> k <> "properties" ->
                    (In (k, v) rows <-> In (k, v) info)).
Proof.
  intros Hname Hdesc Hpub Hpriv Hprop Hcreate Hextra Hkeys.
  set (rows := sorted_items
                 (dict_set (dict_remove info "extra_specs") "properties"
                           (VStr "foo='bar'"))).
  assert (Hin : In ("properties", VStr "foo='bar'") rows).
  { apply sorted_items_In. apply dict_set_In. }
  exists rows.
  split; [|split; [reflexivity|split; [exact Hin|split]]].
  - unfold CreateVolumeType.take_action.
    unfold bind at 1. unfold getattr at 1. rewrite Hpub. unfold ret at 1.
    unfold bind at 1. unfold getattr at 1. rewrite Hpriv. unfold ret at 1.
    unfold bind at 1. unfold getattr at 1. rewrite Hname. unfold ret at 1.
    unfold bind at 1. unfold getattr at 1. rewrite Hdesc. unfold ret at 1.
    cbv zeta.
    replace (if truthy private
             then dict_set (if truthy public
                            then dict_set [] "is_public" (VBool true)
                            else []) "is_public" (VBool false)
             else if truthy public
                  then dict_set [] "is_public" (VBool true) else [])
      with (if truthy private then [("is_public", VBool false)]
            else if truthy public then [("is_public", VBool true)]
            else [])
      by (destruct (truthy private), (truthy public); reflexivity).
    unfold bind at 1. unfold perform at 1.
    match goal with
    | |- context [w tr ?c] =>
        replace (w tr c) with (@Return pyval (VDict info))
          by (symmetry; exact Hcreate)
    end.
    unfold bind at 1. unfold _info at 1. unfold ret at 1.
    unfold bind at 1. unfold dict_pop at 1.
    unfold dict_has in Hextra.
    destruct (dict_get info "extra_specs") as [specs|]; [|discriminate].
    unfold ret at 1.
    unfold bind at 1. unfold getattr at 1. rewrite Hprop. unfold ret at 1.
    change (truthy (VDict [("foo", VStr "bar")])) with true.
    cbv beta iota.
    unfold bind at 1. unfold bind at 1. unfold perform at 1.
    match goal with
    | |- context [w ?t (SetKeys ?a ?b)] =>
        replace (w t (SetKeys a b))
          with (@Return pyval (VDict [("foo", VStr "bar")]))
          by (symmetry; exact Hkeys)
    end.
    unfold ret, dict_update. simpl fold_left. simpl snd.
    change (format_dict (VDict [("foo", VStr "bar")]))
      with (VStr "foo='bar'").
    fold rows. rewrite <- app_assoc.
    rewrite zip_star_nonempty; [reflexivity|].
    intros Hnil. rewrite Hnil in Hin. contradiction.
  - intros Hbad. unfold dict_keys in Hbad.
    apply (Permutation_in _ (Permutation_map fst (sorted_items_perm _)))
      in Hbad.
    fold (dict_keys (dict_set (dict_remove info "extra_specs") "properties"
                       (VStr "foo='bar'"))) in Hbad.
    apply dict_set_keys_incl in Hbad. destruct Hbad as [Heq|Hrem].
    + discriminate Heq.
    + exact (dict_remove_keys _ _ Hrem).
  - intros k v He Hp. apply display_rows_fields; assumption.
Qed.

Lemma create_volume_type_shows_formatted_properties_witness :
  exists rows,
    CreateVolumeType.take_action format_dict
      (VDict [("name", VStr "gold"); ("description", VNone);
              ("public", VBool false); ("private", VBool false);
              ("property", VDict [("foo", VStr "bar")])])
      Fixture.server []
    = (Return (VList [VList (map (fun kv => VStr (fst kv)) rows);
                      VList (map snd rows)]),
       ([] ++ [VolumeTypesCreate (VStr "gold") VNone
                 (if truthy (VBool false) then [("is_public", VBool false)]
                  else if truthy (VBool false)
                       then [("is_public", VBool true)]
                       else []);
               SetKeys
                 (VDict [("id", VStr "7"); ("name", VStr "gold");
                         ("description", VNone); ("is_public", VBool true);
                         ("extra_specs", VDict [])])
                 (VDict [("foo", VStr "bar")])])%list)
    /\ rows = sorted_items
                (dict_set
                   (dict_remove
                      [("id", VStr "7"); ("name", VStr "gold");
                       ("description", VNone); ("is_public", VBool true);
                       ("extra_specs", VDict [])] "extra_specs")
                   "properties" (VStr "foo='bar'"))
    /\ In ("properties", VStr "foo='bar'") rows
    /\ ~ In "extra_specs" (dict_keys rows)
    /\ (forall k v, k <> "extra_specs" -> k <> "properties" ->
                    (In (k, v) rows
                     <-> In (k, v)
                           [("id", VStr "7"); ("name", VStr "gold");
                            ("description", VNone); ("is_public", VBool true);
                            ("extra_specs", VDict [])])).
Proof.
  apply (create_volume_type_shows_formatted_properties Fixture.server []
           [("name", VStr "gold"); ("description", VNone);
            ("public", VBool false); ("private", VBool false);
            ("property", VDict [("foo", VStr "bar")])]
           [("id", VStr "7"); ("name", VStr "gold"); ("description", VNone);
            ("is_public", VBool true); ("extra_specs", VDict [])]
           (VStr "gold") VNone (VBool false) (VBool false));
    reflexivity.
Defined.

(** C6 as stated fails: in the recorded world the display of
    [volume type create gold --property foo=bar] pairs [properties] with
    the string [foo='bar'], and with no mapping. *)
Lemma create_volume_type_properties_not_mapping :
  exists keys values,
    fst (CreateVolumeType.take_action format_dict
           (VDict [("name", VStr "gold"); ("description", VNone);
                   ("public", VBool false); ("private", VBool false);
                   ("property", VDict [("foo", VStr "bar")])])
           Fixture.server [])
    = Return (VList [VList keys; VList values])
    /\ In (VStr "properties", VStr "foo='bar'") (combine keys values)
    /\ ~ In (VStr "properties", VDict [("foo", VStr "bar")])
           (combine keys values).
Proof.
  do 2 eexists. split; [reflexivity|]. split.
  - simpl. tauto.
  - simpl. intros H.
    repeat (destruct H as [H|H]; [discriminate H|]). exact H.
Qed.

(** The display of [volume type create gold --property foo=bar] in the
    recorded world: the keys in ascending order, then the values. *)
Example create_gold_display :
  CreateVolumeType.take_action format_dict
    (VDict [("name", VStr "gold"); ("description", VNone);
            ("public", VBool false); ("private", VBool false);
            ("property", VDict [("foo", VStr "bar")])])
    Fixture.server []
  = (Return
       (VList [VList [VStr "description"; VStr "id"; VStr "is_public";
                      VStr "name"; VStr "properties"];
               VList [VNone; VStr "7"; VBool true; VStr "gold";
                      VStr "foo='bar'"]]),
     [VolumeTypesCreate (VStr "gold") VNone [];
      SetKeys (VDict [("id", VStr "7"); ("name", VStr "gold");
                      ("description", VNone); ("is_public", VBool true);
                      ("extra_specs", VDict [])])
              (VDict [("foo", VStr "bar")])]).
Proof. reflexivity. Qed.

(** C7, as the code has it.  With the same answer of the volume service,
    long mode displays the two columns of the short mode, [ID] and [Name],
    in the same order, followed by two more: [Description] and [Properties]
    (the property map, read from the attribute named by [Extra Specs]
    through [format_dict]).  Each mode makes one row for each volume type. *)
Theorem list_volume_type_long_adds_two_columns
    (get_item_properties :
       pyval -> list string -> list (string * (pyval -> pyval)) -> pyval)
    (fmt : pyval -> pyval)
    (w : world) (tr : trace) (short_args long_args : dict)
    (data : list pyval) :
  dict_get short_args "long" = Some (VBool false) ->
  dict_get long_args "long" = Some (VBool true) ->
  w tr VolumeTypesList = Return (VList data) ->
  exists short_headers long_headers short_rows long_rows,
    ListVolumeType.take_action get_item_properties fmt (VDict short_args) w tr
    = (Return (short_headers, short_rows), (tr ++ [VolumeTypesList])%list)
    /\ ListVolumeType.take_action get_item_properties fmt (VDict long_args)
         w tr
       = (Return (long_headers, long_rows), (tr ++ [VolumeTypesList])%list)
    /\ short_headers = ["ID"; "Name"]
    /\ long_headers = (short_headers ++ ["Description"; "Properties"])%list
    /\ short_rows
       = map (fun s => get_item_properties s ["ID"; "Name"]
                         [("Extra Specs", fmt)]) data
    /\ long_rows
       = map (fun s => get_item_properties s
                         ["ID"; "Name"; "Description"; "Extra Specs"]
                         [("Extra Specs", fmt)]) data.
Proof.
  intros Hshort Hlong Hlist.
  do 4 eexists.
  split; [|split; [|split; [reflexivity|split; [|split; reflexivity]]]].
  - unfold ListVolumeType.take_action, bind, getattr.
    rewrite Hshort. unfold ret at 1.
    change (truthy (VBool false)) with false. cbv beta iota.
    unfold perform. rewrite Hlist. reflexivity.
  - unfold ListVolumeType.take_action, bind, getattr.
    rewrite Hlong. unfold ret at 1.
    change (truthy (VBool true)) with true. cbv beta iota.
    unfold perform. rewrite Hlist. reflexivity.
  - reflexivity.
Qed.

Lemma list_volume_type_long_adds_two_columns_witness :
  exists short_headers long_headers short_rows long_rows,
    ListVolumeType.take_action Fixture.attribute_row format_dict
      (VDict [("long", VBool false)]) Fixture.server []
    = (Return (short_headers, short_rows), ([] ++ [VolumeTypesList])%list)
    /\ ListVolumeType.take_action Fixture.attribute_row format_dict
         (VDict [("long", VBool true)]) Fixture.server []
       = (Return (long_headers, long_rows), ([] ++ [VolumeTypesList])%list)
    /\ short_headers = ["ID"; "Name"]
    /\ long_headers = (short_headers ++ ["Description"; "Properties"])%list
    /\ short_rows
       = map (fun s => Fixture.attribute_row s ["ID"; "Name"]
                         [("Extra Specs", format_dict)]) [Fixture.gold]
    /\ long_rows
       = map (fun s => Fixture.attribute_row s
                         ["ID"; "Name"; "Description"; "Extra Specs"]
                         [("Extra Specs", format_dict)]) [Fixture.gold].
Proof.
  apply (list_volume_type_long_adds_two_columns Fixture.attribute_row
           format_dict Fixture.server [] [("long", VBool false)]
           [("long", VBool true)] [Fixture.gold]); reflexivity.
Defined.

(** C7 as stated fails: in the recorded world the short listing has the two
    headers [ID] and [Name] and the long one has four, so the long headers
    are not the short ones followed by exactly one more column. *)
Lemma list_volume_type_long_not_one_column :
  exists short_headers long_headers short_rows long_rows,
    fst (ListVolumeType.take_action Fixture.attribute_row format_dict
           (VDict [("long", VBool false)]) Fixture.server [])
    = Return (short_headers, short_rows)
    /\ fst (ListVolumeType.take_action Fixture.attribute_row format_dict
              (VDict [("long", VBool true)]) Fixture.server [])
       = Return (long_headers, long_rows)
    /\ length long_headers = length short_headers + 2
    /\ ~ (exists column, long_headers = (short_headers ++ [column])%list).
Proof.
  exists ["ID"; "Name"], ["ID"; "Name"; "Description"; "Properties"].
  do 2 eexists.
  split; [reflexivity|split; [reflexivity|split; [reflexivity|]]].
  intros [column Hc]. discriminate Hc.
Qed.

Lemma consume_not_seen (p : argparse.parser) (name : string)
    (cmdline : list (string * string)) :
  (forall raw, ~ In (name, raw) cmdline) ->
  forall (ns : dict) (seen extras : list string),
    argparse.mem name seen = false ->
    argparse.mem name
      (snd (fst (argparse.consume p cmdline ns seen extras))) = false.
Proof.
  induction cmdline as [|[n raw] rest IH]; intros Hnot ns seen extras Hseen;
    simpl; [assumption|].
  assert (Hrest : forall raw', ~ In (name, raw') rest).
  { intros raw' Hin. apply (Hnot raw'). right. assumption. }
  destruct (argparse.lookup p n) as [a|]; [|apply IH; assumption].
  destruct (argparse.positional a && argparse.mem n seen);
    [apply IH; assumption|].
  apply IH; [assumption|].
  unfold argparse.mem in *. simpl. rewrite Hseen.
  destruct (String.eqb_spec name n) as [->|Hne]; [|reflexivity].
  exfalso. apply (Hnot raw). left. reflexivity.
Qed.

Lemma parse_args_unset_without_property (super_parser : argparse.parser)
    (cmdline : list (string * string)) :
  (forall raw, ~ In ("--property", raw) cmdline) ->
  argparse.parse_args (UnsetVolumeType.get_parser super_parser) cmdline
  = inl "the following arguments are required".
Proof.
  intros Hnot. unfold argparse.parse_args.
  pose proof (consume_not_seen (UnsetVolumeType.get_parser super_parser)
                "--property" cmdline Hnot
                (argparse.defaults (UnsetVolumeType.get_parser super_parser))
                [] [] eq_refl) as Hseen.
  destruct (argparse.consume _ cmdline _ [] []) as [[ns seen] extras].
  simpl in Hseen.
  unfold UnsetVolumeType.get_parser, argparse.missing.
  rewrite filter_app. simpl filter. rewrite Hseen. simpl.
  destruct (filter _ super_parser); simpl;
    destruct (negb (argparse.mem "volume_type" seen)); reflexivity.
Qed.

(** C9. [volume type unset] with no [--property] argument supplied never
    reaches its handler: the parser reports the missing required argument
    and the process exits with status 2, with no call made, be it the lookup
    of the volume type or the removal of the keys. *)
Theorem unset_volume_type_requires_property
    (super_parser : argparse.parser) (cmdline : list (string * string))
    (w : world) (tr : trace) :
  (forall raw, ~ In ("--property", raw) cmdline) ->
  run_subcommand (UnsetVolumeType.get_parser super_parser)
    UnsetVolumeType.take_action cmdline w tr
  = (Raise (SystemExit 2), tr)
  /\ exists msg,
       argparse.parse_args (UnsetVolumeType.get_parser super_parser) cmdline
       = inl msg.
Proof.
  intros Hnot. unfold run_subcommand.
  rewrite (parse_args_unset_without_property _ _ Hnot).
  split; [reflexivity | eexists; reflexivity].
Qed.

Lemma unset_volume_type_requires_property_witness :
  run_subcommand (UnsetVolumeType.get_parser [])
    UnsetVolumeType.take_action [("volume_type", "gold")] Fixture.server []
  = (Raise (SystemExit 2), [])
  /\ exists msg,
       argparse.parse_args (UnsetVolumeType.get_parser [])
         [("volume_type", "gold")]
       = inl msg.
Proof.
  apply (unset_volume_type_requires_property [] [("volume_type", "gold")]
           Fixture.server []).
  intros raw [H|[]]. discriminate H.
Defined.

(** With a property key supplied the parser lets the command through: the
    handler looks the volume type up and removes the key. *)
Example unset_volume_type_with_property :
  snd (run_subcommand (UnsetVolumeType.get_parser [])
         UnsetVolumeType.take_action
         [("volume_type", "gold"); ("--property", "foo")] Fixture.server [])
  = [FindResource (VStr "gold"); UnsetKeys Fixture.gold (VStr "foo")].
Proof. reflexivity. Qed.

(** C10. [volume type set] with none of [--name], [--description] and
    [--property] supplied first looks the volume type up.  When the lookup
    fails (as with NotFound for a target that does not exist) the handler
    fails with that error and emits nothing; when it succeeds the handler
    emits ["No changes requested"] and returns.  Either way the lookup is the
    only call to the volume service: no update and no property call. *)
Theorem set_volume_type_no_changes
    (w : world) (tr : trace) (parsed_args : dict) (name_or_id : pyval) :
  dict_get parsed_args "volume_type" = Some name_or_id ->
  dict_get parsed_args "name" = Some VNone ->
  dict_get parsed_args "description" = Some VNone ->
  dict_get parsed_args "property" = Some VNone ->
  (forall volume_type,
      w tr (FindResource name_or_id) = Return volume_type ->
      SetVolumeType.take_action (VDict parsed_args) w tr
      = (Return VNone,
         (tr ++ [FindResource name_or_id;
                 LogError ("No changes requested" ++ newline)])%list))
  /\ (forall e,
        w tr (FindResource name_or_id) = Raise e ->
        SetVolumeType.take_action (VDict parsed_args) w tr
        = (Raise e, (tr ++ [FindResource name_or_id])%list))
  /\ filter is_network_call
       (skipn (length tr)
          (snd (SetVolumeType.take_action (VDict parsed_args) w tr)))
     = [FindResource name_or_id].
Proof.
  intros Hvt Hname Hdesc Hprop.
  assert (Hok : forall volume_type,
             w tr (FindResource name_or_id) = Return volume_type ->
             SetVolumeType.take_action (VDict parsed_args) w tr
             = (Return VNone,
                (tr ++ [FindResource name_or_id;
                        LogError ("No changes requested" ++ newline)])%list)).
  { intros volume_type Hfind.
    unfold SetVolumeType.take_action, bind, getattr.
    rewrite Hvt. unfold ret at 1. unfold perform. rewrite Hfind.
    rewrite Hname. unfold ret at 1. simpl truthy. cbv iota.
    rewrite Hdesc. unfold ret at 1. simpl truthy. cbv iota.
    rewrite Hprop. unfold ret, log_error. simpl.
    rewrite <- app_assoc. reflexivity. }
  assert (Hfail : forall e,
             w tr (FindResource name_or_id) = Raise e ->
             SetVolumeType.take_action (VDict parsed_args) w tr
             = (Raise e, (tr ++ [FindResource name_or_id])%list)).
  { intros e Hfind.
    unfold SetVolumeType.take_action, bind, getattr.
    rewrite Hvt. unfold ret at 1. unfold perform. rewrite Hfind.
    reflexivity. }
  split; [exact Hok | split; [exact Hfail|]].
  destruct (w tr (FindResource name_or_id)) as [volume_type|e] eqn:Hfind.
  - rewrite (Hok volume_type eq_refl). simpl snd.
    rewrite skipn_app, skipn_all, Nat.sub_diag. reflexivity.
  - rewrite (Hfail e eq_refl). simpl snd.
    rewrite skipn_app, skipn_all, Nat.sub_diag. reflexivity.
Qed.

Lemma set_volume_type_no_changes_witness :
  (forall volume_type,
      Fixture.server [] (FindResource (VStr "gold")) = Return volume_type ->
      SetVolumeType.take_action
        (VDict [("volume_type", VStr "gold"); ("name", VNone);
                ("description", VNone); ("property", VNone)])
        Fixture.server []
      = (Return VNone,
         ([] ++ [FindResource (VStr "gold");
                 LogError ("No changes requested" ++ newline)])%list))
  /\ (forall e,
        Fixture.server [] (FindResource (VStr "gold")) = Raise e ->
        SetVolumeType.take_action
          (VDict [("volume_type", VStr "gold"); ("name", VNone);
                  ("description", VNone); ("property", VNone)])
          Fixture.server []
        = (Raise e, ([] ++ [FindResource (VStr "gold")])%list))
  /\ filter is_network_call
       (skipn (length (@nil call))
          (snd (SetVolumeType.take_action
                  (VDict [("volume_type", VStr "gold"); ("name", VNone);
                          ("description", VNone); ("property", VNone)])
                  Fixture.server [])))
     = [FindResource (VStr "gold")].
Proof.
  apply (set_volume_type_no_changes Fixture.server []
           [("volume_type", VStr "gold"); ("name", VNone);
            ("description", VNone); ("property", VNone)] (VStr "gold"));
    reflexivity.
Defined.

(** The two runs in the recorded world: an existing volume type, and a
    target the lookup does not find. *)
Example set_gold_no_changes :
  SetVolumeType.take_action
    (VDict [("volume_type", VStr "gold"); ("name", VNone);
            ("description", VNone); ("property", VNone)])
    Fixture.server []
  = (Return VNone,
     [FindResource (VStr "gold");
      LogError ("No changes requested" ++ newline)]).
Proof. reflexivity. Qed.

Example set_missing_no_changes :
  SetVolumeType.take_action
    (VDict [("volume_type", VStr "silver"); ("name", VNone);
            ("description", VNone); ("property", VNone)])
    Fixture.server []
  = (Raise (OscNotFound "silver not found"), [FindResource (VStr "silver")]).
Proof. reflexivity. Qed.

(** ** Further properties of [APIv2.find] *)

Section FindFacts.

Variables (w : world) (tr : trace) (path value : string).

Local Abbreviation direct := (direct_fetch path value).

(** The calls of [find], in every world: the direct fetch, followed by one
    [find_one] search only when the fetch raised NotFound or BadRequest and
    an attribute was given. *)
Theorem find_one_or_two_calls (attr : option string) :
  snd (APIv2.find path value attr w tr) = (tr ++ [direct])%list
  \/ exists a e,
       attr = Some a
       /\ w tr direct = Raise e
       /\ APIv2.not_found_or_bad_request e = true
       /\ snd (APIv2.find path value attr w tr)
          = (tr ++ [direct; FindOne path [(a, VStr value)]])%list.
Proof.
  unfold APIv2.find, APIv2._request, APIv2.find_one, direct_fetch. run.
  destruct (w tr _) as [r|e] eqn:Hget; simpl.
  - left. destruct r as [| | | | |entries]; try reflexivity.
    destruct entries as [|[k v] rest]; [reflexivity|].
    simpl. unfold getitem. simpl. rewrite String.eqb_refl. reflexivity.
  - destruct (APIv2.not_found_or_bad_request e) eqn:Hcatch; [|left; reflexivity].
    destruct attr as [a|]; [|left; reflexivity].
    right. exists a, e. repeat split; try reflexivity; try assumption.
    destruct (w _ (FindOne path [(a, VStr value)])) as [r|e']; simpl.
    + rewrite <- app_assoc. reflexivity.
    + destruct (APIv2.not_found e'); simpl; rewrite <- app_assoc; reflexivity.
Qed.

(** [find] never lets the NotFound of the transport through: it is either
    caught (direct fetch) or translated (fallback search). *)
Theorem find_never_raises_transport_not_found (attr : option string) :
  fst (APIv2.find path value attr w tr) <> Raise KsaNotFound.
Proof.
  unfold APIv2.find, APIv2._request, APIv2.find_one, direct_fetch. run.
  destruct (w tr _) as [r|e] eqn:Hget; simpl.
  - destruct r as [| | | | |entries]; try discriminate.
    destruct entries as [|[k v] rest]; [discriminate|].
    simpl. unfold getitem. simpl. rewrite String.eqb_refl. discriminate.
  - destruct (APIv2.not_found_or_bad_request e) eqn:Hcatch.
    + destruct attr as [a|]; [|discriminate].
      destruct (w _ (FindOne path [(a, VStr value)])) as [r|e']; simpl;
        [discriminate|].
      destruct (APIv2.not_found e') eqn:Hnf; simpl; [discriminate|].
      intros H. inversion H; subst e'. discriminate Hnf.
    + simpl. intros H. inversion H; subst e. discriminate Hcatch.
Qed.

(** An error of the direct fetch other than NotFound and BadRequest leaves
    [find] as it is, and no fallback search is made. *)
Theorem find_other_error_propagates (attr : option string) (e : exn) :
  w tr direct = Raise e ->
  APIv2.not_found_or_bad_request e = false ->
  APIv2.find path value attr w tr = (Raise e, (tr ++ [direct])%list).
Proof.
  intros Hget Hcatch. unfold direct_fetch in *.
  unfold APIv2.find, APIv2._request, direct_fetch. run.
  rewrite Hget. simpl. rewrite Hcatch. reflexivity.
Qed.

(** An empty mapping as the body of the direct fetch is an [IndexError],
    which the handler does not catch: there is no fallback search. *)
Theorem find_empty_mapping_index_error (attr : option string) :
  w tr direct = Return (VDict []) ->
  APIv2.find path value attr w tr = (Raise IndexError, (tr ++ [direct])%list).
Proof.
  intros Hget. unfold direct_fetch in Hget.
  unfold APIv2.find, APIv2._request, direct_fetch. run.
  rewrite Hget. reflexivity.
Qed.

(** Whatever mapping the direct fetch returns, [find] hands back the value
    under its first key: a record sent without envelope is replaced by its
    first field. *)
Theorem find_returns_first_value (attr : option string)
    (key : string) (first : pyval) (others : dict) :
  w tr direct = Return (VDict ((key, first) :: others)) ->
  APIv2.find path value attr w tr = (Return first, (tr ++ [direct])%list).
Proof.
  intros Hget. unfold direct_fetch in Hget.
  unfold APIv2.find, APIv2._request, direct_fetch. run.
  rewrite Hget. simpl. unfold getitem. simpl.
  rewrite String.eqb_refl. reflexivity.
Qed.

(** A body that is not a mapping is returned as it is. *)
Theorem find_returns_other_body_unchanged (attr : option string)
    (body : pyval) :
  w tr direct = Return body ->
  (forall d, body <> VDict d) ->
  APIv2.find path value attr w tr = (Return body, (tr ++ [direct])%list).
Proof.
  intros Hget Hnd. unfold direct_fetch in *.
  unfold APIv2.find, APIv2._request, direct_fetch. run.
  rewrite Hget. simpl.
  destruct body as [| | | | |entries]; try reflexivity. exfalso. exact (Hnd entries eq_refl).
Qed.

(** The fallback: when the direct fetch raises NotFound or BadRequest, the
    record [find_one] returns for [attr = value] is the result. *)
Theorem find_fallback_returns_match (attr : string) (e : exn) (r : pyval) :
  w tr direct = Raise e ->
  APIv2.not_found_or_bad_request e = true ->
  w (tr ++ [direct])%list (FindOne path [(attr, VStr value)]) = Return r ->
  APIv2.find path value (Some attr) w tr
  = (Return r, (tr ++ [direct; FindOne path [(attr, VStr value)]])%list).
Proof.
  intros Hget Hcatch Hfb. unfold direct_fetch in *.
  unfold APIv2.find, APIv2._request, APIv2.find_one, direct_fetch. run.
  rewrite Hget. simpl. rewrite Hcatch, Hfb. simpl.
  rewrite <- app_assoc. reflexivity.
Qed.

(** An error of the fallback search other than NotFound (BadRequest
    included) is not translated: [find] raises it as it is. *)
Theorem find_fallback_error_not_translated (attr : string) (e e' : exn) :
  w tr direct = Raise e ->
  APIv2.not_found_or_bad_request e = true ->
  w (tr ++ [direct])%list (FindOne path [(attr, VStr value)]) = Raise e' ->
  APIv2.not_found e' = false ->
  APIv2.find path value (Some attr) w tr
  = (Raise e', (tr ++ [direct; FindOne path [(attr, VStr value)]])%list).
Proof.
  intros Hget Hcatch Hfb Hnf. unfold direct_fetch in *.
  unfold APIv2.find, APIv2._request, APIv2.find_one, direct_fetch. run.
  rewrite Hget. simpl. rewrite Hcatch, Hfb. simpl. rewrite Hnf.
  rewrite <- app_assoc. reflexivity.
Qed.

(** With [attr] left at its default [None] the fallback cannot search: the
    keyword expansion raises [TypeError] and [find_one] is not called. *)
Theorem find_without_attr_type_error (e : exn) :
  w tr direct = Raise e ->
  APIv2.not_found_or_bad_request e = true ->
  APIv2.find path value None w tr = (Raise TypeError, (tr ++ [direct])%list).
Proof.
  intros Hget Hcatch. unfold direct_fetch in *.
  unfold APIv2.find, APIv2._request, direct_fetch. run.
  rewrite Hget. simpl. rewrite Hcatch. reflexivity.
Qed.

End FindFacts.

Lemma find_other_error_propagates_witness :
  APIv2.find APIv2.url "1" (Some "name") Worlds.transport_error []
  = (Raise (OtherError "ConnectionError"),
     ([] ++ [direct_fetch APIv2.url "1"])%list).
Proof.
  apply (find_other_error_propagates Worlds.transport_error [] APIv2.url "1"
           (Some "name") (OtherError "ConnectionError")); reflexivity.
Defined.

Lemma find_empty_mapping_index_error_witness :
  APIv2.find APIv2.url "1" (Some "name") Worlds.empty_body []
  = (Raise IndexError,
     ([] ++ [direct_fetch APIv2.url "1"])%list).
Proof.
  apply (find_empty_mapping_index_error Worlds.empty_body [] APIv2.url "1"
           (Some "name")); reflexivity.
Defined.

Lemma find_returns_first_value_witness :
  APIv2.find APIv2.url "1" (Some "name") Worlds.bare_record []
  = (Return (VStr "1"),
     ([] ++ [direct_fetch APIv2.url "1"])%list).
Proof.
  apply (find_returns_first_value Worlds.bare_record [] APIv2.url "1"
           (Some "name") "id" (VStr "1") [("name", VStr "a")]); reflexivity.
Defined.

Lemma find_returns_other_body_unchanged_witness :
  APIv2.find APIv2.url "1" (Some "name") Worlds.list_body []
  = (Return (VList [Fixture.group "1" "a"]),
     ([] ++ [direct_fetch APIv2.url "1"])%list).
Proof.
  apply (find_returns_other_body_unchanged Worlds.list_body [] APIv2.url "1"
           (Some "name") (VList [Fixture.group "1" "a"])).
  - reflexivity.
  - intros d H. discriminate H.
Defined.

Lemma find_fallback_returns_match_witness :
  APIv2.find APIv2.url "a" (Some "name") Fixture.server []
  = (Return (Fixture.group "1" "a"),
     ([] ++ [direct_fetch APIv2.url "a";
             FindOne APIv2.url [("name", VStr "a")]])%list).
Proof.
  apply (find_fallback_returns_match Fixture.server [] APIv2.url "a" "name"
           KsaNotFound (Fixture.group "1" "a")); reflexivity.
Defined.

Lemma find_fallback_error_not_translated_witness :
  APIv2.find APIv2.url "web" (Some "name") Fixture.server []
  = (Raise (OtherError "RuntimeError"),
     ([] ++ [direct_fetch APIv2.url "web";
             FindOne APIv2.url [("name", VStr "web")]])%list).
Proof.
  apply (find_fallback_error_not_translated Fixture.server [] APIv2.url "web"
           "name" KsaNotFound (OtherError "RuntimeError")); reflexivity.
Defined.

Lemma find_without_attr_type_error_witness :
  APIv2.find APIv2.url "nope" None Fixture.server []
  = (Raise TypeError,
     ([] ++ [direct_fetch APIv2.url "nope"])%list).
Proof.
  apply (find_without_attr_type_error Fixture.server [] APIv2.url "nope"
           KsaNotFound); reflexivity.
Defined.

(** ** Further properties of the security group methods *)

Lemma find_trace_shape (w : world) (tr : trace) (path value : string)
    (attr : option string) (c : call) :
  In c (snd (APIv2.find path value attr w tr)) ->
  In c tr \/ c = direct_fetch path value
  \/ exists a, c = FindOne path [(a, VStr value)].
Proof.
  intros Hin.
  destruct (find_one_or_two_calls w tr path value attr)
    as [H|[a [e [_ [_ [_ H]]]]]]; rewrite H in Hin;
    apply in_app_or in Hin; destruct Hin as [Hin|Hin]; auto.
  - destruct Hin as [<-|[]]. auto.
  - destruct Hin as [<-|[<-|[]]]; [auto | right; right; eauto].
Qed.

(** [security_group_delete] deletes by the ID of the record [find] resolved,
    whatever the caller passed (a name or an ID). *)
Theorem security_group_delete_by_resolved_id
    (w : world) (tr tr1 : trace) (security_group : string)
    (record : dict) (id : pyval) :
  APIv2.find APIv2.url security_group (Some "name") w tr
    = (Return (VDict record), tr1) ->
  dict_get record "id" = Some id ->
  id <> VNone ->
  APIv2.security_group_delete security_group w tr
  = (w tr1 (DeleteCall ("/" ++ APIv2.url ++ "/" ++ str id)),
     (tr1 ++ [DeleteCall ("/" ++ APIv2.url ++ "/" ++ str id)])%list).
Proof.
  intros Hfind Hid Hnn.
  unfold APIv2.security_group_delete, bind. rewrite Hfind.
  unfold getitem. rewrite Hid. unfold ret.
  destruct id; try reflexivity. congruence.
Qed.

Lemma security_group_delete_by_resolved_id_witness :
  APIv2.security_group_delete "a" Fixture.server []
  = (Fixture.server
       [direct_fetch APIv2.url "a"; FindOne APIv2.url [("name", VStr "a")]]
       (DeleteCall ("/" ++ APIv2.url ++ "/" ++ str (VStr "1"))),
     ([direct_fetch APIv2.url "a"; FindOne APIv2.url [("name", VStr "a")]]
        ++ [DeleteCall ("/" ++ APIv2.url ++ "/" ++ str (VStr "1"))])%list).
Proof.
  apply (security_group_delete_by_resolved_id Fixture.server []
           [direct_fetch APIv2.url "a"; FindOne APIv2.url [("name", VStr "a")]]
           "a" [("id", VStr "1"); ("name", VStr "a")] (VStr "1")).
  - reflexivity.
  - reflexivity.
  - discriminate.
Defined.

(** [security_group_delete] sends a delete only after [find] has returned a
    record whose [id] is not [None], and only for that ID: a failed lookup
    deletes nothing. *)
Theorem security_group_delete_only_after_lookup
    (w : world) (tr : trace) (security_group path : string) :
  In (DeleteCall path) (snd (APIv2.security_group_delete security_group w tr)) ->
  ~ In (DeleteCall path) tr ->
  exists record id tr1,
    APIv2.find APIv2.url security_group (Some "name") w tr
      = (Return (VDict record), tr1)
    /\ dict_get record "id" = Some id
    /\ id <> VNone
    /\ path = "/" ++ APIv2.url ++ "/" ++ str id.
Proof.
  intros Hin Hnot.
  assert (Hfind_tr : ~ In (DeleteCall path)
                       (snd (APIv2.find APIv2.url security_group
                               (Some "name") w tr))).
  { intros H. apply find_trace_shape in H.
    destruct H as [H|[H|[a H]]]; [contradiction | discriminate H | discriminate H]. }
  unfold APIv2.security_group_delete, bind in Hin.
  destruct (APIv2.find APIv2.url security_group (Some "name") w tr)
    as [[r|e] tr1] eqn:Hfind; simpl in Hfind_tr; [|contradiction].
  destruct r as [| | | | |record]; simpl in Hin; try contradiction.
  destruct (dict_get record "id") as [id|] eqn:Hid; simpl in Hin;
    [|contradiction].
  assert (Hcases : id = VNone \/ id <> VNone).
  { destruct id; auto; right; discriminate. }
  destruct Hcases as [->|Hnn]; [simpl in Hin; contradiction|].
  exists record, id, tr1. repeat split; try assumption.
  assert (Hdel : In (DeleteCall path)
                   (tr1 ++ [DeleteCall ("/" ++ APIv2.url ++ "/" ++ str id)])%list).
  { destruct id; try exact Hin. congruence. }
  apply in_app_or in Hdel. destruct Hdel as [H|[H|[]]]; [contradiction|].
  inversion H. reflexivity.
Qed.

Lemma security_group_delete_only_after_lookup_witness :
  exists record id tr1,
    APIv2.find APIv2.url "2" (Some "name") Fixture.server []
      = (Return (VDict record), tr1)
    /\ dict_get record "id" = Some id
    /\ id <> VNone
    /\ "//os-security-groups/2" = "/" ++ APIv2.url ++ "/" ++ str id.
Proof.
  apply (security_group_delete_only_after_lookup Fixture.server [] "2"
           "//os-security-groups/2").
  - vm_compute. right. left. reflexivity.
  - intros [].
Defined.

(** [security_group_create] posts the name and the description, both always
    present, in the [security_group] envelope, and returns what the answer
    holds under [security_group]. *)
Theorem security_group_create_unwraps
    (w : world) (tr : trace) (name description : pyval)
    (answer : dict) (created : pyval) :
  w tr (CreateCall APIv2.url
          (VDict [("security_group",
                   VDict [("name", name); ("description", description)])]))
    = Return (VDict answer) ->
  dict_get answer "security_group" = Some created ->
  APIv2.security_group_create name description w tr
  = (Return created,
     (tr ++ [CreateCall APIv2.url
               (VDict [("security_group",
                        VDict [("name", name);
                               ("description", description)])])])%list).
Proof.
  intros Hcreate Hsg.
  unfold APIv2.security_group_create, APIv2.create, bind, perform.
  rewrite Hcreate. unfold getitem. rewrite Hsg. reflexivity.
Qed.

Lemma security_group_create_unwraps_witness :
  APIv2.security_group_create (VStr "web") VNone Worlds.echo []
  = (Return (VDict [("name", VStr "web"); ("description", VNone)]),
     ([] ++ [CreateCall APIv2.url
               (VDict [("security_group",
                        VDict [("name", VStr "web");
                               ("description", VNone)])])])%list).
Proof.
  apply (security_group_create_unwraps Worlds.echo [] (VStr "web") VNone
           [("security_group",
             VDict [("name", VStr "web"); ("description", VNone)])]);
    reflexivity.
Defined.

(** [security_group_list] drops every search filter whose value is false
    ([None], [False], [0], the empty string): a filter mapping with only such
    values lists like no filter at all. *)
Theorem security_group_list_drops_false_filters
    (limit marker : pyval) (opts : dict) (w : world) (tr : trace) :
  forallb (fun kv => negb (truthy (snd kv))) opts = true ->
  APIv2.security_group_list limit marker (Some opts) w tr
  = APIv2.security_group_list limit marker None w tr.
Proof.
  intros Hall.
  assert (Hf : filter (fun kv : string * pyval => truthy (snd kv)) opts = []).
  { induction opts as [|kv opts IH]; [reflexivity|].
    simpl in Hall. apply andb_true_iff in Hall. destruct Hall as [Hkv Hrest].
    simpl. apply negb_true_iff in Hkv. rewrite Hkv. apply IH. assumption. }
  unfold APIv2.security_group_list. rewrite Hf. reflexivity.
Qed.

Lemma security_group_list_drops_false_filters_witness :
  APIv2.security_group_list (VInt 10) VNone
    (Some [("all_tenants", VBool false); ("name", VStr "")]) Fixture.server []
  = APIv2.security_group_list (VInt 10) VNone None Fixture.server [].
Proof.
  apply (security_group_list_drops_false_filters (VInt 10) VNone
           [("all_tenants", VBool false); ("name", VStr "")]
           Fixture.server []).
  reflexivity.
Defined.

(** The one call of [security_group_list] and its parameters: a true
    [limit] is sent as [limit] and a true [marker] as [offset], each
    replacing a search filter of that name; a false [limit] or [marker] is
    not sent; every other parameter is a kept search filter. *)
Theorem security_group_list_params
    (limit marker : pyval) (search_opts : option dict)
    (w : world) (tr : trace) :
  exists params,
    snd (APIv2.security_group_list limit marker search_opts w tr)
    = (tr ++ [ListCall APIv2.url params])%list
    /\ dict_get params "limit"
       = (if truthy limit then Some limit
          else dict_get (kept_filters search_opts) "limit")
    /\ dict_get params "offset"
       = (if truthy marker then Some marker
          else dict_get (kept_filters search_opts) "offset")
    /\ forall k, (k =? "limit") = false -> (k =? "offset") = false ->
                 dict_get params k = dict_get (kept_filters search_opts) k.
Proof.
  unfold APIv2.security_group_list, APIv2.list_.
  change (match search_opts with
          | Some opts => filter (fun kv => truthy (snd kv)) opts
          | None => []
          end) with (kept_filters search_opts).
  set (kept := kept_filters search_opts).
  eexists. split; [|split; [|split]].
  - unfold bind, perform. destruct (w tr _); simpl; [|reflexivity].
    rewrite getitem_trace. reflexivity.
  - destruct (truthy marker), (truthy limit);
      repeat rewrite dict_get_set; simpl; reflexivity.
  - destruct (truthy marker), (truthy limit);
      repeat rewrite dict_get_set; simpl; reflexivity.
  - intros k Hl Ho. rewrite String.eqb_sym in Hl. rewrite String.eqb_sym in Ho.
    destruct (truthy marker), (truthy limit);
      repeat rewrite dict_get_set; rewrite ?Hl, ?Ho; reflexivity.
Qed.

Lemma merge_params_absent (params d : dict) :
  (forall k, In k (dict_keys params) -> dict_has d k = false) ->
  APIv2.merge_params d params = d.
Proof.
  unfold APIv2.merge_params. revert d.
  induction params as [|[k v] params IH]; intros d Habs; simpl; [reflexivity|].
  rewrite (Habs k (or_introl eq_refl)).
  apply IH. intros k' Hk'. apply Habs. right. assumption.
Qed.

Lemma security_group_set_trace
    (w : world) (tr tr1 : trace) (security_group : string)
    (params record : dict) (id : pyval) :
  APIv2.find APIv2.url security_group (Some "name") w tr
    = (Return (VDict record), tr1) ->
  dict_get (APIv2.merge_params record params) "id" = Some id ->
  snd (APIv2.security_group_set security_group params w tr)
  = (tr1 ++ [Request "PUT" ("/" ++ APIv2.url ++ "/" ++ str id)
               (Some (VDict [("security_group",
                              VDict (APIv2.merge_params record params))]))])%list.
Proof.
  intros Hfind Hid.
  unfold APIv2.security_group_set, bind. rewrite Hfind.
  unfold getitem at 1. rewrite Hid.
  unfold ret, APIv2._request, perform.
  destruct (w tr1 _); [|reflexivity].
  apply getitem_trace.
Qed.

Lemma security_group_set_trace_otherwise
    (w : world) (tr : trace) (security_group : string) (params : dict) :
  (forall record id,
      fst (APIv2.find APIv2.url security_group (Some "name") w tr)
        = Return (VDict record) ->
      dict_get (APIv2.merge_params record params) "id" <> Some id) ->
  snd (APIv2.security_group_set security_group params w tr)
  = snd (APIv2.find APIv2.url security_group (Some "name") w tr).
Proof.
  intros Hno.
  unfold APIv2.security_group_set, bind.
  destruct (APIv2.find APIv2.url security_group (Some "name") w tr)
    as [[r|e] tr1]; [|reflexivity].
  destruct r as [| | | | |record]; try reflexivity.
  unfold getitem at 1.
  destruct (dict_get (APIv2.merge_params record params) "id") as [id|] eqn:Hid;
    [|reflexivity].
  exfalso. exact (Hno record id eq_refl Hid).
Qed.

(** With no parameter, or only parameters the fetched record does not have,
    [security_group_set] still sends its PUT, with the fetched record
    unchanged: nothing short-circuits the update. *)
Theorem security_group_set_unknown_keys_put_unchanged
    (w : world) (tr tr1 : trace) (security_group : string)
    (params record : dict) (id : pyval) :
  APIv2.find APIv2.url security_group (Some "name") w tr
    = (Return (VDict record), tr1) ->
  dict_get record "id" = Some id ->
  (forall k, In k (dict_keys params) -> dict_has record k = false) ->
  snd (APIv2.security_group_set security_group params w tr)
  = (tr1 ++ [Request "PUT" ("/" ++ APIv2.url ++ "/" ++ str id)
               (Some (VDict [("security_group", VDict record)]))])%list.
Proof.
  intros Hfind Hid Habs.
  unfold APIv2.security_group_set, bind. rewrite Hfind.
  rewrite (merge_params_absent _ _ Habs).
  unfold getitem at 1. rewrite Hid.
  unfold ret, APIv2._request, perform.
  destruct (w tr1 _); [|reflexivity].
  apply getitem_trace.
Qed.

Lemma security_group_set_unknown_keys_put_unchanged_witness :
  snd (APIv2.security_group_set "1" [] Fixture.server [])
  = ([direct_fetch APIv2.url "1"]
       ++ [Request "PUT" ("/" ++ APIv2.url ++ "/" ++ str (VStr "1"))
             (Some (VDict [("security_group",
                            VDict [("id", VStr "1"); ("name", VStr "a")])]))])%list.
Proof.
  apply (security_group_set_unknown_keys_put_unchanged Fixture.server []
           [direct_fetch APIv2.url "1"] "1" []
           [("id", VStr "1"); ("name", VStr "a")] (VStr "1")).
  - reflexivity.
  - reflexivity.
  - intros k [].
Defined.

(** [security_group_set] sends a PUT only after [find] has returned a
    mapping whose merged form has an [id]; the PUT goes to that [id] and
    carries the merged record in the [security_group] envelope.  A failed
    lookup, a [None] record or a record without [id] sends nothing. *)
Theorem security_group_set_only_after_lookup
    (w : world) (tr : trace) (security_group : string) (params : dict)
    (target : string) (body : option pyval) :
  In (Request "PUT" target body)
     (snd (APIv2.security_group_set security_group params w tr)) ->
  ~ In (Request "PUT" target body) tr ->
  exists record id tr1,
    APIv2.find APIv2.url security_group (Some "name") w tr
      = (Return (VDict record), tr1)
    /\ dict_get (APIv2.merge_params record params) "id" = Some id
    /\ target = "/" ++ APIv2.url ++ "/" ++ str id
    /\ body = Some (VDict [("security_group",
                            VDict (APIv2.merge_params record params))]).
Proof.
  intros Hin Hnot.
  assert (Hfind_tr : ~ In (Request "PUT" target body)
                       (snd (APIv2.find APIv2.url security_group
                               (Some "name") w tr))).
  { intros H. apply find_trace_shape in H.
    destruct H as [H|[H|[a H]]];
      [contradiction | discriminate H | discriminate H]. }
  destruct (APIv2.find APIv2.url security_group (Some "name") w tr)
    as [[r|e] tr1] eqn:Hfind.
  - destruct r as [| | | | |record];
      try (rewrite security_group_set_trace_otherwise in Hin;
           [rewrite Hfind in Hin; contradiction
           | rewrite Hfind; intros record id H; discriminate H]).
    destruct (dict_get (APIv2.merge_params record params) "id") as [id|]
      eqn:Hid.
    + exists record, id, tr1. split; [reflexivity|]. split; [exact Hid|].
      simpl in Hfind_tr.
      rewrite (security_group_set_trace w tr tr1 _ _ record id Hfind Hid) in Hin.
      apply in_app_or in Hin. destruct Hin as [H|[H|[]]]; [contradiction|].
      inversion H. split; reflexivity.
    + rewrite security_group_set_trace_otherwise in Hin;
        [rewrite Hfind in Hin; contradiction|].
      rewrite Hfind. intros record' id H Hid'. inversion H; subst record'.
      congruence.
  - rewrite security_group_set_trace_otherwise in Hin;
      [rewrite Hfind in Hin; contradiction|].
    rewrite Hfind. intros record id H. discriminate H.
Qed.

Lemma security_group_set_only_after_lookup_witness :
  exists record id tr1,
    APIv2.find APIv2.url "1" (Some "name") Fixture.server []
      = (Return (VDict record), tr1)
    /\ dict_get (APIv2.merge_params record [("name", VStr "b")]) "id" = Some id
    /\ "//os-security-groups/1" = "/" ++ APIv2.url ++ "/" ++ str id
    /\ Some (VDict [("security_group",
                     VDict [("id", VStr "1"); ("name", VStr "b")])])
       = Some (VDict [("security_group",
                       VDict (APIv2.merge_params record
                                [("name", VStr "b")]))]).
Proof.
  apply (security_group_set_only_after_lookup Fixture.server [] "1"
           [("name", VStr "b")] "//os-security-groups/1"
           (Some (VDict [("security_group",
                          VDict [("id", VStr "1"); ("name", VStr "b")])]))).
  - vm_compute. right. left. reflexivity.
  - intros [].
Defined.

(** A supplied [id] replaces the fetched one like any other present key, and
    the PUT is addressed to the supplied [id]. *)
Theorem security_group_set_supplied_id_retargets
    (w : world) (tr tr1 : trace) (security_group : string)
    (params record : dict) (id : pyval) :
  APIv2.find APIv2.url security_group (Some "name") w tr
    = (Return (VDict record), tr1) ->
  dict_has record "id" = true ->
  NoDup (dict_keys params) ->
  In ("id", id) params ->
  snd (APIv2.security_group_set security_group params w tr)
  = (tr1 ++ [Request "PUT" ("/" ++ APIv2.url ++ "/" ++ str id)
               (Some (VDict [("security_group",
                              VDict (APIv2.merge_params record params))]))])%list
  /\ dict_get (APIv2.merge_params record params) "id" = Some id.
Proof.
  intros Hfind Hhas Hnd Hin.
  pose proof (merge_params_overwrites params record "id" id Hnd Hin Hhas)
    as Hid.
  split; [|exact Hid].
  unfold APIv2.security_group_set, bind. rewrite Hfind.
  unfold getitem at 1. rewrite Hid.
  unfold ret, APIv2._request, perform.
  destruct (w tr1 _); [|reflexivity].
  apply getitem_trace.
Qed.

Lemma security_group_set_supplied_id_retargets_witness :
  snd (APIv2.security_group_set "1" [("id", VStr "3")] Fixture.server [])
  = ([direct_fetch APIv2.url "1"]
       ++ [Request "PUT" ("/" ++ APIv2.url ++ "/" ++ str (VStr "3"))
             (Some (VDict [("security_group",
                            VDict (APIv2.merge_params
                                     [("id", VStr "1"); ("name", VStr "a")]
                                     [("id", VStr "3")]))]))])%list
  /\ dict_get (APIv2.merge_params [("id", VStr "1"); ("name", VStr "a")]
                                  [("id", VStr "3")]) "id"
     = Some (VStr "3").
Proof.
  apply (security_group_set_supplied_id_retargets Fixture.server []
           [direct_fetch APIv2.url "1"] "1" [("id", VStr "3")]
           [("id", VStr "1"); ("name", VStr "a")] (VStr "3")).
  - reflexivity.
  - reflexivity.
  - repeat constructor. intros [].
  - left. reflexivity.
Defined.

Lemma dict_ext (d1 d2 : dict) :
  dict_keys d1 = dict_keys d2 ->
  NoDup (dict_keys d1) ->
  (forall k, dict_get d1 k = dict_get d2 k) ->
  d1 = d2.
Proof.
  unfold dict_keys. revert d2.
  induction d1 as [|[k1 v1] d1 IH]; intros [|[k2 v2] d2] Hk Hnd Hget;
    try discriminate; [reflexivity|].
  simpl in Hk. inversion Hk as [[Hk12 Hrest]]. subst k2.
  inversion Hnd as [|? ? Hnotin Hnd']; subst.
  pose proof (Hget k1) as H1. simpl in H1. rewrite String.eqb_refl in H1.
  inversion H1; subst v2. f_equal.
  apply IH; try assumption.
  intros k. pose proof (Hget k) as H. simpl in H.
  destruct (String.eqb_spec k1 k) as [->|Hne]; [|assumption].
  assert (Hn1 : dict_get d1 k = None).
  { destruct (dict_get d1 k) eqn:E; [|reflexivity].
    exfalso. apply Hnotin.
    assert (Hh : dict_has d1 k = true) by (unfold dict_has; rewrite E; reflexivity).
    apply dict_has_In in Hh. exact Hh. }
  assert (Hn2 : dict_get d2 k = None).
  { destruct (dict_get d2 k) eqn:E; [|reflexivity].
    exfalso. apply Hnotin. rewrite Hrest.
    assert (Hh : dict_has d2 k = true) by (unfold dict_has; rewrite E; reflexivity).
    apply dict_has_In in Hh. exact Hh. }
  rewrite Hn1, Hn2. reflexivity.
Qed.

(** Merging the same parameters a second time changes nothing: repeating
    an update sends the same record. *)
Theorem merge_params_idempotent (params record : dict) :
  NoDup (dict_keys record) ->
  NoDup (dict_keys params) ->
  APIv2.merge_params (APIv2.merge_params record params) params
  = APIv2.merge_params record params.
Proof.
  intros Hrec Hpar.
  apply dict_ext.
  - rewrite !merge_params_keys. reflexivity.
  - rewrite !merge_params_keys. assumption.
  - intros k.
    destruct (in_dec string_dec k (dict_keys params)) as [Hin|Hnin].
    + unfold dict_keys in Hin. apply in_map_iff in Hin.
      destruct Hin as [[k' v] [Hk Hin]]. simpl in Hk. subst k'.
      destruct (dict_has record k) eqn:Hhas.
      * rewrite (merge_params_overwrites params record k v Hpar Hin Hhas).
        apply merge_params_overwrites; try assumption.
        rewrite (dict_has_keys _ record); [assumption|apply merge_params_keys].
      * rewrite (merge_params_drops params record k Hhas).
        apply merge_params_drops.
        rewrite (dict_has_keys _ record); [assumption|apply merge_params_keys].
    + apply merge_params_untouched. assumption.
Qed.

Lemma merge_params_idempotent_witness :
  APIv2.merge_params
    (APIv2.merge_params [("id", VStr "1"); ("name", VStr "a")]
                        [("bogus", VStr "x"); ("name", VStr "b")])
    [("bogus", VStr "x"); ("name", VStr "b")]
  = APIv2.merge_params [("id", VStr "1"); ("name", VStr "a")]
                       [("bogus", VStr "x"); ("name", VStr "b")].
Proof.
  apply (merge_params_idempotent [("bogus", VStr "x"); ("name", VStr "b")]
           [("id", VStr "1"); ("name", VStr "a")]).
  - repeat constructor; simpl; intuition discriminate.
  - repeat constructor; simpl; intuition discriminate.
Defined.

(** ** Further properties of the volume type commands *)

Lemma sorted_items_keys (d : dict) (k : string) :
  In k (dict_keys (sorted_items d)) <-> In k (dict_keys d).
Proof.
  unfold dict_keys. split; intros H.
  - apply (Permutation_in _ (Permutation_map fst (sorted_items_perm d))).
    exact H.
  - apply (Permutation_in _
             (Permutation_sym (Permutation_map fst (sorted_items_perm d)))).
    exact H.
Qed.

Lemma display_without_extra_specs (info : dict) :
  ~ In "extra_specs" (dict_keys (sorted_items (dict_remove info "extra_specs"))).
Proof.
  rewrite sorted_items_keys. apply dict_remove_keys.
Qed.

Lemma display_with_properties (info : dict) (v : pyval) :
  ~ In "extra_specs"
      (dict_keys (sorted_items
                    (dict_set (dict_remove info "extra_specs") "properties" v))).
Proof.
  rewrite sorted_items_keys. intros H.
  apply dict_set_keys_incl in H. destruct H as [H|H]; [discriminate H|].
  exact (dict_remove_keys _ _ H).
Qed.

(** Handlers only append to the trace. *)
Lemma extends_ret {A} (a : A) : extends (ret a).
Proof. intros w tr. exists []. simpl. rewrite app_nil_r. reflexivity. Qed.

Lemma extends_raise {A} (e : exn) : extends (@raise A e).
Proof. intros w tr. exists []. simpl. rewrite app_nil_r. reflexivity. Qed.

Lemma extends_perform (c : call) : extends (perform c).
Proof. intros w tr. exists [c]. reflexivity. Qed.

Lemma extends_log_error (msg : string) : extends (log_error msg).
Proof. intros w tr. exists [LogError msg]. reflexivity. Qed.

Lemma extends_bind {A B} (c : M A) (k : A -> M B) :
  extends c -> (forall a, extends (k a)) -> extends (bind c k).
Proof.
  intros Hc Hk w tr. unfold bind.
  destruct (Hc w tr) as [rest1 H1].
  destruct (c w tr) as [[a|e] tr1]; simpl in H1; subst tr1.
  - destruct (Hk a w (tr ++ rest1)%list) as [rest2 H2].
    exists (rest1 ++ rest2)%list. rewrite H2, app_assoc. reflexivity.
  - exists rest1. reflexivity.
Qed.

Lemma extends_getattr (obj : pyval) (name : string) :
  extends (getattr obj name).
Proof.
  unfold getattr. destruct obj; try apply extends_raise.
  destruct (dict_get entries name); [apply extends_ret | apply extends_raise].
Qed.

Lemma extends_getitem (v : pyval) (k : string) : extends (getitem v k).
Proof.
  unfold getitem. destruct v; try apply extends_raise.
  destruct (dict_get entries k); [apply extends_ret | apply extends_raise].
Qed.

Lemma extends_info (resource : pyval) : extends (_info resource).
Proof.
  unfold _info. destruct resource; try apply extends_raise. apply extends_ret.
Qed.

Lemma extends_dict_pop (d : dict) (k : string) : extends (dict_pop d k).
Proof.
  unfold dict_pop. destruct (dict_get d k);
    [apply extends_ret | apply extends_raise].
Qed.

Lemma extends_iterate (v : pyval) : extends (iterate v).
Proof. unfold iterate. destruct v; try apply extends_raise; apply extends_ret. Qed.

Create HintDb extends.

#[local] Hint Resolve extends_ret extends_raise extends_perform
  extends_log_error extends_getattr extends_getitem extends_info
  extends_dict_pop extends_iterate : extends.

(** After a call, whatever the continuation does, the call stays in the
    trace right after the calls made before. *)
Lemma extends_after_perform {A} (c : call) (k : pyval -> M A)
    (w : world) (tr : trace) :
  (forall a, extends (k a)) ->
  exists rest, snd (bind (perform c) k w tr) = (tr ++ c :: rest)%list.
Proof.
  intros Hk. unfold bind, perform.
  destruct (w tr c) as [a|e].
  - destruct (Hk a w (tr ++ [c])%list) as [rest H].
    exists rest. rewrite H, <- app_assoc. reflexivity.
  - exists []. reflexivity.
Qed.

(** The visibility [CreateVolumeType] asks for: [is_public=False] when
    [private] is set (also when [public] is set too), [is_public=True] when
    only [public] is set, and no [is_public] at all otherwise.  The create
    call is the first call of the handler. *)
Theorem create_volume_type_visibility
    (fmt : pyval -> pyval) (w : world) (tr : trace) (parsed_args : dict)
    (name description public private : pyval) :
  dict_get parsed_args "name" = Some name ->
  dict_get parsed_args "description" = Some description ->
  dict_get parsed_args "public" = Some public ->
  dict_get parsed_args "private" = Some private ->
  exists rest,
    snd (CreateVolumeType.take_action fmt (VDict parsed_args) w tr)
    = (tr ++ VolumeTypesCreate name description
               (if truthy private then [("is_public", VBool false)]
                else if truthy public then [("is_public", VBool true)]
                else [])
             :: rest)%list.
Proof.
  intros Hname Hdesc Hpub Hpriv.
  unfold CreateVolumeType.take_action.
  unfold bind at 1. unfold getattr at 1. rewrite Hpub. unfold ret at 1.
  unfold bind at 1. unfold getattr at 1. rewrite Hpriv. unfold ret at 1.
  unfold bind at 1. unfold getattr at 1. rewrite Hname. unfold ret at 1.
  unfold bind at 1. unfold getattr at 1. rewrite Hdesc. unfold ret at 1.
  replace (if truthy private
           then dict_set (if truthy public
                          then dict_set [] "is_public" (VBool true)
                          else []) "is_public" (VBool false)
           else if truthy public
                then dict_set [] "is_public" (VBool true) else [])
    with (if truthy private then [("is_public", VBool false)]
          else if truthy public then [("is_public", VBool true)]
          else [])
    by (destruct (truthy private), (truthy public); reflexivity).
  apply extends_after_perform. intros volume_type.
  repeat (apply extends_bind; [|intros]); auto with extends.
  destruct (truthy _); auto with extends.
  apply extends_bind; [|intros]; auto with extends.
Qed.

Lemma create_volume_type_visibility_witness :
  exists rest,
    snd (CreateVolumeType.take_action format_dict
           (VDict [("name", VStr "gold"); ("description", VNone);
                   ("public", VBool true); ("private", VBool true);
                   ("property", VNone)])
           Fixture.server [])
    = ([] ++ VolumeTypesCreate (VStr "gold") VNone
               (if truthy (VBool true) then [("is_public", VBool false)]
                else if truthy (VBool true) then [("is_public", VBool true)]
                else [])
             :: rest)%list.
Proof.
  apply (create_volume_type_visibility format_dict Fixture.server []
           [("name", VStr "gold"); ("description", VNone);
            ("public", VBool true); ("private", VBool true);
            ("property", VNone)]
           (VStr "gold") VNone (VBool true) (VBool true)); reflexivity.
Defined.

(** When the record of the created volume type has no [extra_specs], the
    handler fails with [KeyError] after the type has been created: the
    create call is made, the property call is not. *)
Theorem create_volume_type_missing_extra_specs
    (fmt : pyval -> pyval) (w : world) (tr : trace) (parsed_args info : dict)
    (name description public private : pyval) :
  dict_get parsed_args "name" = Some name ->
  dict_get parsed_args "description" = Some description ->
  dict_get parsed_args "public" = Some public ->
  dict_get parsed_args "private" = Some private ->
  (forall kwargs,
      w tr (VolumeTypesCreate name description kwargs)
      = Return (VDict info)) ->
  dict_has info "extra_specs" = false ->
  exists kwargs,
    CreateVolumeType.take_action fmt (VDict parsed_args) w tr
    = (Raise (KeyError "extra_specs"),
       (tr ++ [VolumeTypesCreate name description kwargs])%list).
Proof.
  intros Hname Hdesc Hpub Hpriv Hcreate Hextra.
  eexists.
  unfold CreateVolumeType.take_action, bind, getattr, _info, dict_pop.
  rewrite Hpub. unfold ret at 1. rewrite Hpriv. unfold ret at 1.
  rewrite Hname. unfold ret at 1. rewrite Hdesc. unfold ret at 1.
  unfold perform at 1. rewrite Hcreate. unfold ret at 1.
  unfold dict_has in Hextra.
  destruct (dict_get info "extra_specs"); [discriminate|].
  reflexivity.
Qed.

Lemma create_volume_type_missing_extra_specs_witness :
  exists kwargs,
    CreateVolumeType.take_action format_dict
      (VDict [("name", VStr "gold"); ("description", VNone);
              ("public", VBool false); ("private", VBool false);
              ("property", VDict [("foo", VStr "bar")])])
      Worlds.no_extra_specs []
    = (Raise (KeyError "extra_specs"),
       ([] ++ [VolumeTypesCreate (VStr "gold") VNone kwargs])%list).
Proof.
  apply (create_volume_type_missing_extra_specs format_dict
           Worlds.no_extra_specs []
           [("name", VStr "gold"); ("description", VNone);
            ("public", VBool false); ("private", VBool false);
            ("property", VDict [("foo", VStr "bar")])]
           [("id", VStr "7"); ("name", VStr "gold")]
           (VStr "gold") VNone (VBool false) (VBool false)); reflexivity.
Defined.

(** Without a property, [CreateVolumeType] makes the create call only and
    displays the created record less its [extra_specs], sorted by key. *)
Theorem create_volume_type_without_property
    (fmt : pyval -> pyval) (w : world) (tr : trace) (parsed_args info : dict)
    (name description public private property : pyval) :
  dict_get parsed_args "name" = Some name ->
  dict_get parsed_args "description" = Some description ->
  dict_get parsed_args "public" = Some public ->
  dict_get parsed_args "private" = Some private ->
  dict_get parsed_args "property" = Some property ->
  truthy property = false ->
  (forall kwargs,
      w tr (VolumeTypesCreate name description kwargs)
      = Return (VDict info)) ->
  dict_has info "extra_specs" = true ->
  exists kwargs,
    CreateVolumeType.take_action fmt (VDict parsed_args) w tr
    = (Return (zip_star (sorted_items (dict_remove info "extra_specs"))),
       (tr ++ [VolumeTypesCreate name description kwargs])%list).
Proof.
  intros Hname Hdesc Hpub Hpriv Hprop Hfalse Hcreate Hextra.
  eexists.
  unfold CreateVolumeType.take_action, bind, getattr, _info, dict_pop.
  rewrite Hpub. unfold ret at 1. rewrite Hpriv. unfold ret at 1.
  rewrite Hname. unfold ret at 1. rewrite Hdesc. unfold ret at 1.
  unfold perform at 1. rewrite Hcreate. unfold ret at 1.
  unfold dict_has in Hextra.
  destruct (dict_get info "extra_specs"); [|discriminate].
  unfold ret at 1. rewrite Hprop. unfold ret at 1. rewrite Hfalse.
  reflexivity.
Qed.

Lemma create_volume_type_without_property_witness :
  exists kwargs,
    CreateVolumeType.take_action format_dict
      (VDict [("name", VStr "gold"); ("description", VNone);
              ("public", VBool false); ("private", VBool false);
              ("property", VNone)])
      Fixture.server []
    = (Return (zip_star
                 (sorted_items
                    (dict_remove
                       [("id", VStr "7"); ("name", VStr "gold");
                        ("description", VNone); ("is_public", VBool true);
                        ("extra_specs", VDict [])] "extra_specs"))),
       ([] ++ [VolumeTypesCreate (VStr "gold") VNone kwargs])%list).
Proof.
  apply (create_volume_type_without_property format_dict Fixture.server []
           [("name", VStr "gold"); ("description", VNone);
            ("public", VBool false); ("private", VBool false);
            ("property", VNone)]
           [("id", VStr "7"); ("name", VStr "gold"); ("description", VNone);
            ("is_public", VBool true); ("extra_specs", VDict [])]
           (VStr "gold") VNone (VBool false) (VBool false) VNone);
    reflexivity.
Defined.

(** Whenever [CreateVolumeType] returns, it returns a display built from
    rows in ascending order of their keys, none of which is [extra_specs]. *)
Theorem create_volume_type_display_sorted
    (fmt : pyval -> pyval) (w : world) (tr : trace) (parsed_args : pyval)
    (display : pyval) :
  fst (CreateVolumeType.take_action fmt parsed_args w tr) = Return display ->
  exists rows,
    display = zip_star rows
    /\ Sorted key_le rows
    /\ ~ In "extra_specs" (dict_keys rows).
Proof.
  unfold CreateVolumeType.take_action, bind.
  destruct (getattr parsed_args "public" w tr) as [[public|e] tr0];
    [|discriminate].
  destruct (getattr parsed_args "private" w tr0) as [[private|e] tr1];
    [|discriminate].
  destruct (getattr parsed_args "name" w tr1) as [[name|e] tr2];
    [|discriminate].
  destruct (getattr parsed_args "description" w tr2) as [[description|e] tr3];
    [|discriminate].
  destruct (perform _ w tr3) as [[volume_type|e] tr4]; [|discriminate].
  destruct (_info volume_type w tr4) as [[info|e] tr5]; [|discriminate].
  unfold dict_pop.
  destruct (dict_get info "extra_specs") as [specs|]; [|discriminate].
  unfold ret at 1. simpl snd.
  destruct (getattr parsed_args "property" w tr5) as [[property|e] tr6];
    [|discriminate].
  destruct (truthy property).
  - destruct (perform _ w tr6) as [[result|e] tr7]; [|discriminate].
    unfold ret. simpl. intros H. inversion H; subst display.
    eexists. split; [reflexivity|].
    split; [apply sorted_items_sorted | apply display_with_properties].
  - unfold ret. simpl. intros H. inversion H; subst display.
    eexists. split; [reflexivity|].
    split; [apply sorted_items_sorted | apply display_without_extra_specs].
Qed.

Lemma create_volume_type_display_sorted_witness :
  exists rows,
    VList [VList [VStr "description"; VStr "id"; VStr "is_public";
                  VStr "name"; VStr "properties"];
           VList [VNone; VStr "7"; VBool true; VStr "gold";
                  VStr "foo='bar'"]]
    = zip_star rows
    /\ Sorted key_le rows
    /\ ~ In "extra_specs" (dict_keys rows).
Proof.
  apply (create_volume_type_display_sorted format_dict Fixture.server []
           (VDict [("name", VStr "gold"); ("description", VNone);
                   ("public", VBool false); ("private", VBool false);
                   ("property", VDict [("foo", VStr "bar")])])).
  reflexivity.
Defined.

(** [ShowVolumeType] looks the volume type up, makes no other call, and
    displays its record with [extra_specs] replaced by [properties], the
    formatted [extra_specs], whatever the formatter is: the rows are the
    fields of the record other than [extra_specs] (and than a [properties]
    of its own), together with [properties], in ascending order of the
    keys. *)
Theorem show_volume_type_display
    (fmt : pyval -> pyval) (w : world) (tr : trace) (parsed_args info : dict)
    (name_or_id specs : pyval) :
  dict_get parsed_args "volume_type" = Some name_or_id ->
  w tr (FindResource name_or_id) = Return (VDict info) ->
  dict_get info "extra_specs" = Some specs ->
  exists rows,
    ShowVolumeType.take_action fmt (VDict parsed_args) w tr
    = (Return (VList [VList (map (fun kv => VStr (fst kv)) rows);
                      VList (map snd rows)]),
       (tr ++ [FindResource name_or_id])%list)
    /\ rows = sorted_items
                (dict_set (dict_remove info "extra_specs") "properties"
                          (fmt specs))
    /\ In ("properties", fmt specs) rows
    /\ (forall k v, k <> "extra_specs" -> k <> "properties" ->
                    (In (k, v) rows <-> In (k, v) info))
    /\ ~ In "extra_specs" (dict_keys rows)
    /\ Sorted key_le rows.
Proof.
  intros Hvt Hfind Hspecs.
  set (rows := sorted_items
                 (dict_set (dict_remove info "extra_specs") "properties"
                           (fmt specs))).
  assert (Hin : In ("properties", fmt specs) rows).
  { apply sorted_items_In. apply dict_set_In. }
  exists rows.
  split; [|split; [reflexivity|split; [exact Hin|split; [|split]]]].
  - unfold ShowVolumeType.take_action, bind, getattr, _info, dict_pop.
    rewrite Hvt. unfold ret at 1. unfold perform. rewrite Hfind.
    unfold ret at 1. rewrite Hspecs. unfold ret. simpl.
    f_equal. f_equal. apply zip_star_nonempty.
    intros Hnil. fold rows in Hnil. rewrite Hnil in Hin. contradiction.
  - intros k v He Hp. apply display_rows_fields; assumption.
  - apply display_with_properties.
  - apply sorted_items_sorted.
Qed.

Lemma show_volume_type_display_witness :
  exists rows,
    ShowVolumeType.take_action format_dict
      (VDict [("volume_type", VStr "gold")]) Fixture.server []
    = (Return (VList [VList (map (fun kv => VStr (fst kv)) rows);
                      VList (map snd rows)]),
       ([] ++ [FindResource (VStr "gold")])%list)
    /\ rows = sorted_items
                (dict_set
                   (dict_remove
                      [("id", VStr "7"); ("name", VStr "gold");
                       ("description", VNone); ("is_public", VBool true);
                       ("extra_specs", VDict [])] "extra_specs")
                   "properties" (format_dict (VDict [])))
    /\ In ("properties", format_dict (VDict [])) rows
    /\ (forall k v, k <> "extra_specs" -> k <> "properties" ->
                    (In (k, v) rows
                     <-> In (k, v)
                           [("id", VStr "7"); ("name", VStr "gold");
                            ("description", VNone); ("is_public", VBool true);
                            ("extra_specs", VDict [])]))
    /\ ~ In "extra_specs" (dict_keys rows)
    /\ Sorted key_le rows.
Proof.
  apply (show_volume_type_display format_dict Fixture.server []
           [("volume_type", VStr "gold")]
           [("id", VStr "7"); ("name", VStr "gold"); ("description", VNone);
            ("is_public", VBool true); ("extra_specs", VDict [])]
           (VStr "gold") (VDict [])); reflexivity.
Defined.

(** The display of [volume type show gold] in the recorded world. *)
Example show_gold_display :
  ShowVolumeType.take_action format_dict
    (VDict [("volume_type", VStr "gold")]) Fixture.server []
  = (Return
       (VList [VList [VStr "description"; VStr "id"; VStr "is_public";
                      VStr "name"; VStr "properties"];
               VList [VNone; VStr "7"; VBool true; VStr "gold"; VStr ""]]),
     [FindResource (VStr "gold")]).
Proof. reflexivity. Qed.

(** [DeleteVolumeType] deletes by the [id] of the volume type the lookup
    resolved, after the lookup, and returns nothing. *)
Theorem delete_volume_type_by_resolved_id
    (w : world) (tr : trace) (parsed_args volume_type : dict)
    (name_or_id id answer : pyval) :
  dict_get parsed_args "volume_type" = Some name_or_id ->
  w tr (FindResource name_or_id) = Return (VDict volume_type) ->
  dict_get volume_type "id" = Some id ->
  w (tr ++ [FindResource name_or_id])%list (VolumeTypesDelete id)
    = Return answer ->
  DeleteVolumeType.take_action (VDict parsed_args) w tr
  = (Return VNone,
     (tr ++ [FindResource name_or_id; VolumeTypesDelete id])%list).
Proof.
  intros Hvt Hfind Hid Hdel.
  unfold DeleteVolumeType.take_action, bind, getattr.
  rewrite Hvt. unfold ret at 1. unfold perform at 1. rewrite Hfind.
  rewrite Hid. unfold ret at 1. unfold perform. rewrite Hdel.
  unfold ret. rewrite <- app_assoc. reflexivity.
Qed.

Lemma delete_volume_type_by_resolved_id_witness :
  DeleteVolumeType.take_action (VDict [("volume_type", VStr "gold")])
    Fixture.server []
  = (Return VNone,
     ([] ++ [FindResource (VStr "gold"); VolumeTypesDelete (VStr "7")])%list).
Proof.
  apply (delete_volume_type_by_resolved_id Fixture.server []
           [("volume_type", VStr "gold")]
           [("id", VStr "7"); ("name", VStr "gold"); ("description", VNone);
            ("is_public", VBool true); ("extra_specs", VDict [])]
           (VStr "gold") (VStr "7") VNone); reflexivity.
Defined.

(** [DeleteVolumeType] deletes nothing but the volume type its lookup
    returned: a delete call in its trace carries the [id] of that record, so
    a failed lookup deletes nothing. *)
Theorem delete_volume_type_only_resolved
    (w : world) (tr : trace) (parsed_args : pyval) (id : pyval) :
  In (VolumeTypesDelete id)
     (snd (DeleteVolumeType.take_action parsed_args w tr)) ->
  ~ In (VolumeTypesDelete id) tr ->
  exists name_or_id volume_type,
    fst (getattr parsed_args "volume_type" w tr) = Return name_or_id
    /\ w tr (FindResource name_or_id) = Return (VDict volume_type)
    /\ dict_get volume_type "id" = Some id.
Proof.
  intros Hin Hnot.
  unfold DeleteVolumeType.take_action, bind in Hin.
  assert (Hattr : snd (getattr parsed_args "volume_type" w tr) = tr).
  { unfold getattr. destruct parsed_args; try reflexivity.
    destruct (dict_get entries "volume_type"); reflexivity. }
  destruct (getattr parsed_args "volume_type" w tr) as [[name_or_id|e] tr0];
    simpl in Hattr; subst tr0; [|simpl in Hin; contradiction].
  unfold perform at 1 in Hin.
  destruct (w tr (FindResource name_or_id)) as [vt|e] eqn:Hfind.
  - destruct vt as [| | | | |volume_type];
      try (simpl in Hin; apply in_app_or in Hin;
           destruct Hin as [H|[H|[]]]; [contradiction | discriminate H]).
    unfold getattr in Hin.
    destruct (dict_get volume_type "id") as [id'|] eqn:Hid.
    + unfold ret at 1, perform in Hin.
      assert (Hin' : In (VolumeTypesDelete id)
                       ((tr ++ [FindResource name_or_id])
                          ++ [VolumeTypesDelete id'])%list).
      { destruct (w _ (VolumeTypesDelete id')); exact Hin. }
      apply in_app_or in Hin'. destruct Hin' as [H|[H|[]]].
      * apply in_app_or in H. destruct H as [H|[H|[]]];
          [contradiction | discriminate H].
      * inversion H; subst id'.
        exists name_or_id, volume_type. split; [reflexivity|].
        split; [exact Hfind | exact Hid].
    + simpl in Hin. apply in_app_or in Hin.
      destruct Hin as [H|[H|[]]]; [contradiction | discriminate H].
  - simpl in Hin. apply in_app_or in Hin.
    destruct Hin as [H|[H|[]]]; [contradiction | discriminate H].
Qed.

Lemma delete_volume_type_only_resolved_witness :
  exists name_or_id volume_type,
    fst (getattr (VDict [("volume_type", VStr "gold")]) "volume_type"
           Fixture.server []) = Return name_or_id
    /\ Fixture.server [] (FindResource name_or_id) = Return (VDict volume_type)
    /\ dict_get volume_type "id" = Some (VStr "7").
Proof.
  apply (delete_volume_type_only_resolved Fixture.server []
           (VDict [("volume_type", VStr "gold")]) (VStr "7")).
  - vm_compute. right. left. reflexivity.
  - intros [].
Defined.

(** The calls of [SetVolumeType] when something is to change and the volume
    service accepts it: the lookup, then one update carrying the name and
    the description that are set (only when one of them is), then one
    property call (only when a property is given). *)
Theorem set_volume_type_dispatch
    (w : world) (tr : trace) (parsed_args volume_type : dict)
    (name_or_id name description property id : pyval) :
  dict_get parsed_args "volume_type" = Some name_or_id ->
  dict_get parsed_args "name" = Some name ->
  dict_get parsed_args "description" = Some description ->
  dict_get parsed_args "property" = Some property ->
  w tr (FindResource name_or_id) = Return (VDict volume_type) ->
  dict_get volume_type "id" = Some id ->
  truthy name || truthy description || truthy property = true ->
  (forall tr' kwargs e, w tr' (VolumeTypesUpdate id kwargs) <> Raise e) ->
  (forall tr' e, w tr' (SetKeys (VDict volume_type) property) <> Raise e) ->
  SetVolumeType.take_action (VDict parsed_args) w tr
  = (Return VNone,
     (tr ++ [FindResource name_or_id]
         ++ (if truthy name || truthy description
             then [VolumeTypesUpdate id
                     ((if truthy name then [("name", name)] else [])
                        ++ (if truthy description
                            then [("description", description)] else []))]
             else [])
         ++ (if truthy property
             then [SetKeys (VDict volume_type) property] else []))%list).
Proof.
  intros Hvt Hname Hdesc Hprop Hfind Hid Hsome Hupd Hkeys.
  unfold SetVolumeType.take_action, bind, getattr.
  rewrite Hvt, Hname, Hdesc, Hprop.
  unfold ret, perform, log_error. rewrite Hfind.
  destruct (truthy name) eqn:Tn, (truthy description) eqn:Td,
           (truthy property) eqn:Tp;
    try discriminate Hsome; simpl; rewrite ?Hid;
    repeat match goal with
      | |- context [w ?t (VolumeTypesUpdate id ?kw)] =>
          let E := fresh "E" in
          destruct (w t (VolumeTypesUpdate id kw)) eqn:E;
          [|exfalso; exact (Hupd _ _ _ E)]
      | |- context [w ?t (SetKeys (VDict volume_type) property)] =>
          let E := fresh "E" in
          destruct (w t (SetKeys (VDict volume_type) property)) eqn:E;
          [|exfalso; exact (Hkeys _ _ E)]
      end;
    repeat rewrite <- app_assoc; reflexivity.
Qed.

Lemma set_volume_type_dispatch_witness :
  SetVolumeType.take_action
    (VDict [("volume_type", VStr "gold"); ("name", VStr "platinum");
            ("description", VNone);
            ("property", VDict [("tier", VStr "1")])])
    Fixture.server []
  = (Return VNone,
     ([] ++ [FindResource (VStr "gold")]
         ++ (if truthy (VStr "platinum") || truthy VNone
             then [VolumeTypesUpdate (VStr "7")
                     ((if truthy (VStr "platinum")
                       then [("name", VStr "platinum")] else [])
                        ++ (if truthy VNone
                            then [("description", VNone)] else []))]
             else [])
         ++ (if truthy (VDict [("tier", VStr "1")])
             then [SetKeys
                     (VDict [("id", VStr "7"); ("name", VStr "gold");
                             ("description", VNone);
                             ("is_public", VBool true);
                             ("extra_specs", VDict [])])
                     (VDict [("tier", VStr "1")])]
             else []))%list).
Proof.
  apply (set_volume_type_dispatch Fixture.server []
           [("volume_type", VStr "gold"); ("name", VStr "platinum");
            ("description", VNone);
            ("property", VDict [("tier", VStr "1")])]
           [("id", VStr "7"); ("name", VStr "gold"); ("description", VNone);
            ("is_public", VBool true); ("extra_specs", VDict [])]
           (VStr "gold") (VStr "platinum") VNone
           (VDict [("tier", VStr "1")]) (VStr "7"));
    try reflexivity.
  - intros tr' kwargs e H. discriminate H.
  - intros tr' e H. discriminate H.
Defined.

(** A name, a description or a property that is false for Python (the empty
    string, the empty mapping, as well as [None]) counts as not supplied:
    [SetVolumeType] then reports "No changes requested" after the lookup and
    changes nothing. *)
Theorem set_volume_type_false_values_no_changes
    (w : world) (tr : trace) (parsed_args : dict)
    (name_or_id name description property volume_type : pyval) :
  dict_get parsed_args "volume_type" = Some name_or_id ->
  dict_get parsed_args "name" = Some name ->
  dict_get parsed_args "description" = Some description ->
  dict_get parsed_args "property" = Some property ->
  truthy name = false ->
  truthy description = false ->
  truthy property = false ->
  w tr (FindResource name_or_id) = Return volume_type ->
  SetVolumeType.take_action (VDict parsed_args) w tr
  = (Return VNone,
     (tr ++ [FindResource name_or_id;
             LogError ("No changes requested" ++ newline)])%list).
Proof.
  intros Hvt Hname Hdesc Hprop Tn Td Tp Hfind.
  unfold SetVolumeType.take_action, bind, getattr.
  rewrite Hvt, Hname, Hdesc, Hprop.
  unfold ret, perform, log_error. rewrite Hfind, Tn, Td, Tp. simpl.
  rewrite <- app_assoc. reflexivity.
Qed.

Lemma set_volume_type_false_values_no_changes_witness :
  SetVolumeType.take_action
    (VDict [("volume_type", VStr "gold"); ("name", VStr "");
            ("description", VStr ""); ("property", VDict [])])
    Fixture.server []
  = (Return VNone,
     ([] ++ [FindResource (VStr "gold");
             LogError ("No changes requested" ++ newline)])%list).
Proof.
  apply (set_volume_type_false_values_no_changes Fixture.server []
           [("volume_type", VStr "gold"); ("name", VStr "");
            ("description", VStr ""); ("property", VDict [])]
           (VStr "gold") (VStr "") (VStr "") (VDict []) Fixture.gold);
    reflexivity.
Defined.

(** When the update fails, [SetVolumeType] fails with the same error and
    does not go on to set the properties. *)
Theorem set_volume_type_update_failure_skips_properties
    (w : world) (tr : trace) (parsed_args volume_type : dict)
    (name_or_id name description property id : pyval) (e : exn) :
  dict_get parsed_args "volume_type" = Some name_or_id ->
  dict_get parsed_args "name" = Some name ->
  dict_get parsed_args "description" = Some description ->
  dict_get parsed_args "property" = Some property ->
  w tr (FindResource name_or_id) = Return (VDict volume_type) ->
  dict_get volume_type "id" = Some id ->
  truthy name || truthy description = true ->
  (forall kwargs,
      w (tr ++ [FindResource name_or_id])%list (VolumeTypesUpdate id kwargs)
      = Raise e) ->
  exists kwargs,
    SetVolumeType.take_action (VDict parsed_args) w tr
    = (Raise e,
       (tr ++ [FindResource name_or_id; VolumeTypesUpdate id kwargs])%list).
Proof.
  intros Hvt Hname Hdesc Hprop Hfind Hid Hsome Hupd.
  unfold SetVolumeType.take_action, bind, getattr.
  rewrite Hvt, Hname, Hdesc, Hprop.
  unfold ret, perform, log_error. rewrite Hfind.
  destruct (truthy name) eqn:Tn, (truthy description) eqn:Td;
    try discriminate Hsome; eexists; simpl; rewrite Hid, Hupd;
    rewrite <- app_assoc; reflexivity.
Qed.

Lemma set_volume_type_update_failure_skips_properties_witness :
  exists kwargs,
    SetVolumeType.take_action
      (VDict [("volume_type", VStr "gold"); ("name", VStr "platinum");
              ("description", VNone);
              ("property", VDict [("tier", VStr "1")])])
      Worlds.update_fails []
    = (Raise (OtherError "ClientException"),
       ([] ++ [FindResource (VStr "gold");
               VolumeTypesUpdate (VStr "7") kwargs])%list).
Proof.
  apply (set_volume_type_update_failure_skips_properties Worlds.update_fails
           []
           [("volume_type", VStr "gold"); ("name", VStr "platinum");
            ("description", VNone);
            ("property", VDict [("tier", VStr "1")])]
           [("id", VStr "7"); ("name", VStr "gold"); ("description", VNone);
            ("is_public", VBool true); ("extra_specs", VDict [])]
           (VStr "gold") (VStr "platinum") VNone
           (VDict [("tier", VStr "1")]) (VStr "7")
           (OtherError "ClientException")); reflexivity.
Defined.

(** Whatever is to be set, a failed lookup ends [SetVolumeType] with the
    error of the lookup: no update and no property call is made. *)
Theorem set_volume_type_lookup_failure
    (w : world) (tr : trace) (parsed_args : dict) (name_or_id : pyval)
    (e : exn) :
  dict_get parsed_args "volume_type" = Some name_or_id ->
  w tr (FindResource name_or_id) = Raise e ->
  SetVolumeType.take_action (VDict parsed_args) w tr
  = (Raise e, (tr ++ [FindResource name_or_id])%list).
Proof.
  intros Hvt Hfind.
  unfold SetVolumeType.take_action.
  unfold bind at 1. unfold getattr at 1. rewrite Hvt. unfold ret at 1.
  unfold bind at 1. unfold perform at 1. rewrite Hfind. reflexivity.
Qed.

Lemma set_volume_type_lookup_failure_witness :
  SetVolumeType.take_action
    (VDict [("volume_type", VStr "silver"); ("name", VStr "platinum");
            ("description", VStr "fast");
            ("property", VDict [("tier", VStr "1")])])
    Fixture.server []
  = (Raise (OscNotFound "silver not found"),
     ([] ++ [FindResource (VStr "silver")])%list).
Proof.
  apply (set_volume_type_lookup_failure Fixture.server []
           [("volume_type", VStr "silver"); ("name", VStr "platinum");
            ("description", VStr "fast");
            ("property", VDict [("tier", VStr "1")])]
           (VStr "silver") (OscNotFound "silver not found")); reflexivity.
Defined.

(** ** Further properties of the parsers *)

(** A parser rejects every command line that leaves out one of its
    positional or required arguments. *)
Lemma parse_args_missing (p : argparse.parser) (a : argparse.argument)
    (cmdline : list (string * string)) :
  In a p ->
  argparse.positional a || argparse.arg_required a = true ->
  (forall raw, ~ In (argparse.arg_name a, raw) cmdline) ->
  argparse.parse_args p cmdline = inl "the following arguments are required".
Proof.
  intros Hin Hreq Hnot. unfold argparse.parse_args.
  pose proof (consume_not_seen p (argparse.arg_name a) cmdline Hnot
                (argparse.defaults p) [] [] eq_refl) as Hseen.
  destruct (argparse.consume p cmdline (argparse.defaults p) [] [])
    as [[ns seen] extras].
  simpl in Hseen.
  assert (Hmiss : In a (argparse.missing p seen)).
  { unfold argparse.missing. apply filter_In. split; [assumption|].
    rewrite Hreq, Hseen. reflexivity. }
  destruct (argparse.missing p seen); [contradiction | reflexivity].
Qed.

(** [volume type delete] and [volume type show] without the volume type
    argument exit in the parser with status 2: neither handler runs, and no
    call is made. *)
Theorem delete_and_show_require_volume_type
    (super_parser : argparse.parser) (fmt : pyval -> pyval)
    (cmdline : list (string * string)) (w : world) (tr : trace) :
  (forall raw, ~ In ("volume_type", raw) cmdline) ->
  run_subcommand (DeleteVolumeType.get_parser super_parser)
    DeleteVolumeType.take_action cmdline w tr
  = (Raise (SystemExit 2), tr)
  /\ run_subcommand (ShowVolumeType.get_parser super_parser)
       (ShowVolumeType.take_action fmt) cmdline w tr
     = (Raise (SystemExit 2), tr).
Proof.
  intros Hnot. unfold run_subcommand. split.
  - rewrite (parse_args_missing _
               {| argparse.arg_name := "volume_type";
                  argparse.arg_action := argparse.Store;
                  argparse.arg_default := VNone;
                  argparse.arg_required := false |} cmdline);
      [reflexivity | | reflexivity | exact Hnot].
    unfold DeleteVolumeType.get_parser. apply in_or_app. right. left.
    reflexivity.
  - rewrite (parse_args_missing _
               {| argparse.arg_name := "volume_type";
                  argparse.arg_action := argparse.Store;
                  argparse.arg_default := VNone;
                  argparse.arg_required := false |} cmdline);
      [reflexivity | | reflexivity | exact Hnot].
    unfold ShowVolumeType.get_parser. apply in_or_app. right. left.
    reflexivity.
Qed.

Lemma delete_and_show_require_volume_type_witness :
  run_subcommand (DeleteVolumeType.get_parser [])
    DeleteVolumeType.take_action [] Fixture.server []
  = (Raise (SystemExit 2), [])
  /\ run_subcommand (ShowVolumeType.get_parser [])
       (ShowVolumeType.take_action format_dict) [] Fixture.server []
     = (Raise (SystemExit 2), []).
Proof.
  apply (delete_and_show_require_volume_type [] format_dict []
           Fixture.server []).
  intros raw [].
Defined.

Section UnsetParser.

Local Abbreviation P := (UnsetVolumeType.get_parser []).

Lemma last_value_other (name n raw : string)
    (rest : list (string * string)) :
  (n =? name) = false ->
  last_value name ((n, raw) :: rest) = last_value name rest.
Proof.
  intros Hne. simpl. rewrite Hne. destruct (last_value name rest); reflexivity.
Qed.

Lemma unset_consume (cmdline : list (string * string)) :
  forall (ns : dict) (seen extras : list string),
    let result := argparse.consume P cmdline ns seen extras in
    let ns' := fst (fst result) in
    let seen' := snd (fst result) in
    dict_get ns' "property"
    = match last_value "--property" cmdline with
      | Some raw => Some (VStr raw)
      | None => dict_get ns "property"
      end
    /\ (argparse.mem "--property" seen' = true ->
        argparse.mem "--property" seen = true
        \/ exists raw, last_value "--property" cmdline = Some raw)
    /\ (argparse.mem "volume_type" seen = true ->
        dict_get ns' "volume_type" = dict_get ns "volume_type")
    /\ (argparse.mem "volume_type" seen = false ->
        argparse.mem "volume_type" seen' = true ->
        exists v, In ("volume_type", v) cmdline
                  /\ dict_get ns' "volume_type" = Some (VStr v)).
Proof.
  induction cmdline as [|[n raw] rest IH]; intros ns seen extras.
  - simpl. repeat split; auto. intros H1 H2. congruence.
  - cbv zeta.
    change (argparse.consume P ((n, raw) :: rest) ns seen extras)
      with (match argparse.lookup P n with
            | None => argparse.consume P rest ns seen (extras ++ [n])%list
            | Some a =>
                if argparse.positional a && argparse.mem n seen
                then argparse.consume P rest ns seen (extras ++ [raw])%list
                else argparse.consume P rest
                       (dict_set ns (argparse.dest a) (argparse.stored a raw))
                       (n :: seen) extras
            end).
    change (argparse.lookup P n)
      with (if "volume_type" =? n
            then Some {| argparse.arg_name := "volume_type";
                         argparse.arg_action := argparse.Store;
                         argparse.arg_default := VNone;
                         argparse.arg_required := false |}
            else if "--property" =? n
                 then Some {| argparse.arg_name := "--property";
                              argparse.arg_action := argparse.Store;
                              argparse.arg_default := VList [];
                              argparse.arg_required := true |}
                 else None).
    destruct (String.eqb_spec "volume_type" n) as [<-|Hvt].
    + (* the positional argument *)
      rewrite (last_value_other "--property" "volume_type" raw rest eq_refl).
      change (argparse.positional _) with true. cbv beta iota. simpl andb.
      destruct (argparse.mem "volume_type" seen) eqn:Hseen.
      * specialize (IH ns seen (extras ++ [raw])%list). cbv zeta in IH.
        destruct IH as [I1 [I2 [I3 I4]]].
        repeat split; auto. intros H. discriminate H.
      * specialize (IH (dict_set ns "volume_type" (VStr raw))
                       ("volume_type" :: seen) extras).
        cbv zeta in IH. destruct IH as [I1 [I2 [I3 I4]]].
        change (argparse.dest _) with "volume_type".
        change (argparse.stored _ raw) with (VStr raw).
        split; [|split; [|split]].
        -- rewrite I1, dict_get_set. reflexivity.
        -- intros H. apply I2 in H. destruct H as [H|H]; [left|right; exact H].
           unfold argparse.mem in *. simpl in H. exact H.
        -- intros H. discriminate H.
        -- intros _ _. exists raw. split; [left; reflexivity|].
           rewrite I3; [|unfold argparse.mem; simpl; reflexivity].
           rewrite dict_get_set. reflexivity.
    + destruct (String.eqb_spec "--property" n) as [<-|Hprop].
      * (* the option *)
        change (argparse.positional _) with false. cbv beta iota. simpl andb.
        change (argparse.dest _) with "property".
        change (argparse.stored _ raw) with (VStr raw).
        specialize (IH (dict_set ns "property" (VStr raw))
                       ("--property" :: seen) extras).
        cbv zeta in IH. destruct IH as [I1 [I2 [I3 I4]]].
        split; [|split; [|split]].
        -- rewrite I1. simpl last_value.
           destruct (last_value "--property" rest); [reflexivity|].
           rewrite dict_get_set. reflexivity.
        -- intros _. right. simpl last_value.
           destruct (last_value "--property" rest); eexists; reflexivity.
        -- intros H. rewrite I3; [rewrite dict_get_set; reflexivity|].
           unfold argparse.mem in *. simpl. exact H.
        -- intros H1 H2.
           destruct I4 as [v [Hin Hv]];
             [unfold argparse.mem in *; simpl; exact H1 | exact H2 |].
           exists v. split; [right; exact Hin | exact Hv].
      * (* an unknown argument *)
        rewrite (last_value_other "--property" n raw rest)
          by (rewrite String.eqb_sym; apply String.eqb_neq; exact Hprop).
        specialize (IH ns seen (extras ++ [n])%list). cbv zeta in IH.
        destruct IH as [I1 [I2 [I3 I4]]].
        repeat split; auto.
        intros H1 H2. destruct (I4 H1 H2) as [v [Hin Hv]].
        exists v. split; [right; exact Hin | exact Hv].
Qed.

Lemma unset_parse_accepted (cmdline : list (string * string)) (ns : dict) :
  argparse.parse_args P cmdline = inr ns ->
  exists v raw,
    In ("volume_type", v) cmdline
    /\ last_value "--property" cmdline = Some raw
    /\ dict_get ns "volume_type" = Some (VStr v)
    /\ dict_get ns "property" = Some (VStr raw).
Proof.
  unfold argparse.parse_args.
  pose proof (unset_consume cmdline (argparse.defaults P) [] []) as H.
  cbv zeta in H.
  destruct (argparse.consume P cmdline (argparse.defaults P) [] [])
    as [[ns' seen] extras].
  simpl fst in H. simpl snd in H. destruct H as [I1 [I2 [_ I4]]].
  unfold argparse.missing. simpl filter.
  destruct (argparse.mem "volume_type" seen) eqn:Hvt; simpl;
    [|discriminate].
  destruct (argparse.mem "--property" seen) eqn:Hprop; simpl;
    [|discriminate].
  destruct extras; [|discriminate].
  intros Hns. inversion Hns; subst ns'.
  destruct (I4 eq_refl eq_refl) as [v [Hin Hv]].
  destruct (I2 eq_refl) as [Hbad|[raw Hraw]]; [discriminate Hbad|].
  exists v, raw. rewrite Hraw in I1. auto.
Qed.

End UnsetParser.

(** When the parser of [volume type unset] accepts the command line, the
    handler looks up the volume type that was given and removes one key: the
    argument of the last [--property], passed as a single string.  Earlier
    [--property] arguments are dropped, and the default [[]] is never
    used. *)
Theorem unset_volume_type_last_property_only
    (cmdline : list (string * string)) (ns : dict) (w : world) (tr : trace) :
  argparse.parse_args (UnsetVolumeType.get_parser []) cmdline = inr ns ->
  exists v raw,
    In ("volume_type", v) cmdline
    /\ last_value "--property" cmdline = Some raw
    /\ forall volume_type,
         w tr (FindResource (VStr v)) = Return volume_type ->
         snd (run_subcommand (UnsetVolumeType.get_parser [])
                UnsetVolumeType.take_action cmdline w tr)
         = (tr ++ [FindResource (VStr v);
                   UnsetKeys volume_type (VStr raw)])%list.
Proof.
  intros Hparse.
  destruct (unset_parse_accepted cmdline ns Hparse)
    as [v [raw [Hin [Hlast [Hv Hraw]]]]].
  exists v, raw. split; [exact Hin|]. split; [exact Hlast|].
  intros volume_type Hfind.
  unfold run_subcommand. rewrite Hparse.
  unfold UnsetVolumeType.take_action, bind, getattr.
  rewrite Hv, Hraw. unfold ret, perform. rewrite Hfind.
  destruct (w _ (UnsetKeys volume_type (VStr raw))); simpl;
    rewrite <- app_assoc; reflexivity.
Qed.

Lemma unset_volume_type_last_property_only_witness :
  exists v raw,
    In ("volume_type", v)
       [("--property", "foo"); ("volume_type", "gold"); ("--property", "bar")]
    /\ last_value "--property"
         [("--property", "foo"); ("volume_type", "gold");
          ("--property", "bar")] = Some raw
    /\ forall volume_type,
         Fixture.server [] (FindResource (VStr v)) = Return volume_type ->
         snd (run_subcommand (UnsetVolumeType.get_parser [])
                UnsetVolumeType.take_action
                [("--property", "foo"); ("volume_type", "gold");
                 ("--property", "bar")] Fixture.server [])
         = ([] ++ [FindResource (VStr v);
                   UnsetKeys volume_type (VStr raw)])%list.
Proof.
  apply (unset_volume_type_last_property_only
           [("--property", "foo"); ("volume_type", "gold");
            ("--property", "bar")]
           [("volume_type", VStr "gold"); ("property", VStr "bar")]
           Fixture.server []).
  reflexivity.
Defined.

Lemma consume_cons (p : argparse.parser) (n raw : string)
    (rest : list (string * string)) (ns : dict) (seen extras : list string) :
  argparse.consume p ((n, raw) :: rest) ns seen extras
  = match argparse.lookup p n with
    | None => argparse.consume p rest ns seen (extras ++ [n])%list
    | Some a =>
        if argparse.positional a && argparse.mem n seen
        then argparse.consume p rest ns seen (extras ++ [raw])%list
        else argparse.consume p rest
               (dict_set ns (argparse.dest a) (argparse.stored a raw))
               (n :: seen) extras
    end.
Proof. reflexivity. Qed.

Lemma lookup_app (p q : argparse.parser) (n : string) :
  argparse.lookup (p ++ q)%list n
  = match argparse.lookup p n with
    | Some a => Some a
    | None => argparse.lookup q n
    end.
Proof.
  induction p as [|a p IH]; simpl; [reflexivity|].
  destruct (argparse.arg_name a =? n); [reflexivity | exact IH].
Qed.

Lemma lookup_In (p : argparse.parser) (n : string) (a : argparse.argument) :
  argparse.lookup p n = Some a -> In a p /\ argparse.arg_name a = n.
Proof.
  induction p as [|b p IH]; simpl; [discriminate|].
  destruct (String.eqb_spec (argparse.arg_name b) n) as [Heq|Hne].
  - intros H. inversion H; subst b. auto.
  - intros H. destruct (IH H). auto.
Qed.

Section ListParser.

Variable super_parser : argparse.parser.

Hypothesis no_long :
  forall a, In a super_parser ->
            argparse.arg_name a <> "--long" /\ argparse.dest a <> "long".

Lemma list_consume (cmdline : list (string * string)) :
  forall (ns : dict) (seen extras : list string),
    dict_get
      (fst (fst (argparse.consume (ListVolumeType.get_parser super_parser)
                   cmdline ns seen extras))) "long"
    = if supplied "--long" cmdline then Some (VBool true)
      else dict_get ns "long".
Proof.
  induction cmdline as [|[n raw] rest IH]; intros ns seen extras;
    [reflexivity|].
  rewrite consume_cons.
  assert (Hl : argparse.lookup (ListVolumeType.get_parser super_parser) n
               = match argparse.lookup super_parser n with
                 | Some a => Some a
                 | None =>
                     if "--long" =? n
                     then Some {| argparse.arg_name := "--long";
                                  argparse.arg_action := argparse.StoreTrue;
                                  argparse.arg_default := VBool false;
                                  argparse.arg_required := false |}
                     else None
                 end)
    by (unfold ListVolumeType.get_parser; rewrite lookup_app; reflexivity).
  rewrite Hl. clear Hl.
  unfold supplied. simpl existsb. fold (supplied "--long" rest).
  destruct (argparse.lookup super_parser n) as [a|] eqn:Hlook.
  - apply lookup_In in Hlook. destruct Hlook as [Hin Hname].
    destruct (no_long a Hin) as [Hn Hd]. rewrite Hname in Hn.
    apply String.eqb_neq in Hn. rewrite Hn. simpl orb.
    destruct (argparse.positional a && argparse.mem n seen);
      rewrite IH; [reflexivity|].
    rewrite dict_get_set. apply String.eqb_neq in Hd. rewrite Hd.
    reflexivity.
  - rewrite (String.eqb_sym n "--long").
    destruct (String.eqb_spec "--long" n) as [<-|Hne].
    + change (argparse.positional _) with false. cbv beta iota. simpl andb.
      change (argparse.dest _) with "long".
      change (argparse.stored _ raw) with (VBool true).
      cbv iota. rewrite IH. simpl orb.
      destruct (supplied "--long" rest); [reflexivity|].
      rewrite dict_get_set. reflexivity.
    + rewrite IH. reflexivity.
Qed.

Lemma defaults_keep (p : argparse.parser) (k : string) :
  (forall a, In a p -> argparse.dest a <> k) ->
  forall ns,
    dict_get
      (fold_left
         (fun ns a => if dict_has ns (argparse.dest a) then ns
                      else dict_set ns (argparse.dest a)
                             (argparse.arg_default a))
         p ns) k
    = dict_get ns k.
Proof.
  induction p as [|a p IH]; intros Hk ns; simpl; [reflexivity|].
  rewrite IH by (intros b Hb; apply Hk; right; exact Hb).
  destruct (dict_has ns (argparse.dest a)); [reflexivity|].
  rewrite dict_get_set.
  pose proof (Hk a (or_introl eq_refl)) as Hne.
  apply String.eqb_neq in Hne. rewrite Hne. reflexivity.
Qed.

Lemma list_defaults :
  dict_get (argparse.defaults (ListVolumeType.get_parser super_parser)) "long"
  = Some (VBool false).
Proof.
  unfold argparse.defaults, ListVolumeType.get_parser.
  rewrite fold_left_app. cbn [fold_left].
  change (argparse.dest {| argparse.arg_name := "--long";
                           argparse.arg_action := argparse.StoreTrue;
                           argparse.arg_default := VBool false;
                           argparse.arg_required := false |})
    with "long".
  cbn [argparse.arg_default].
  set (D := fold_left
              (fun ns a => if dict_has ns (argparse.dest a) then ns
                           else dict_set ns (argparse.dest a)
                                  (argparse.arg_default a))
              super_parser []).
  assert (Hnone : dict_get D "long" = None).
  { subst D. rewrite defaults_keep; [reflexivity|].
    intros a Ha. exact (proj2 (no_long a Ha)). }
  assert (Hhas : dict_has D "long" = false)
    by (unfold dict_has; rewrite Hnone; reflexivity).
  rewrite Hhas, dict_get_set. reflexivity.
Qed.

Lemma list_parse_long (cmdline : list (string * string)) (ns : dict) :
  argparse.parse_args (ListVolumeType.get_parser super_parser) cmdline
    = inr ns ->
  dict_get ns "long" = Some (VBool (supplied "--long" cmdline)).
Proof.
  unfold argparse.parse_args. intros Hparse.
  pose proof (list_consume cmdline
                (argparse.defaults (ListVolumeType.get_parser super_parser))
                [] []) as H.
  destruct (argparse.consume _ cmdline _ [] []) as [[ns' seen] extras].
  simpl fst in H.
  destruct (argparse.missing _ seen); [|discriminate].
  destruct extras; [|discriminate].
  inversion Hparse; subst ns'. rewrite H, list_defaults.
  destruct (supplied "--long" cmdline); reflexivity.
Qed.

End ListParser.

(** For every command line its parser accepts, [volume type list] displays
    the four long columns when [--long] occurs on it and the two short ones
    when it does not (the default), with one row for each volume type.
    This holds on top of every inherited parser that has no [--long] of its
    own. *)
Theorem list_volume_type_long_iff_flag
    (super_parser : argparse.parser)
    (get_item_properties :
       pyval -> list string -> list (string * (pyval -> pyval)) -> pyval)
    (fmt : pyval -> pyval)
    (cmdline : list (string * string)) (ns : dict)
    (w : world) (tr : trace) (data : list pyval) :
  (forall a, In a super_parser ->
             argparse.arg_name a <> "--long" /\ argparse.dest a <> "long") ->
  argparse.parse_args (ListVolumeType.get_parser super_parser) cmdline
    = inr ns ->
  w tr VolumeTypesList = Return (VList data) ->
  exists rows,
    fst (run_subcommand (ListVolumeType.get_parser super_parser)
           (ListVolumeType.take_action get_item_properties fmt) cmdline w tr)
    = Return ((if supplied "--long" cmdline
               then ["ID"; "Name"; "Description"; "Properties"]
               else ["ID"; "Name"]),
              rows)
    /\ length rows = length data.
Proof.
  intros Hsuper Hparse Hlist.
  pose proof (list_parse_long super_parser Hsuper cmdline ns Hparse) as Hlong.
  unfold run_subcommand. rewrite Hparse.
  unfold ListVolumeType.take_action, bind, getattr.
  rewrite Hlong. unfold ret at 1.
  destruct (supplied "--long" cmdline);
    [change (truthy (VBool true)) with true
    |change (truthy (VBool false)) with false];
    cbv beta iota; unfold perform; rewrite Hlist;
    eexists; (split; [reflexivity | apply length_map]).
Qed.

Lemma list_volume_type_long_iff_flag_witness :
  exists rows,
    fst (run_subcommand (ListVolumeType.get_parser Worlds.lister_parser)
           (ListVolumeType.take_action Fixture.attribute_row format_dict)
           [("--format", "json"); ("--long", "")] Fixture.server [])
    = Return ((if supplied "--long" [("--format", "json"); ("--long", "")]
               then ["ID"; "Name"; "Description"; "Properties"]
               else ["ID"; "Name"]),
              rows)
    /\ length rows = length [Fixture.gold].
Proof.
  apply (list_volume_type_long_iff_flag Worlds.lister_parser
           Fixture.attribute_row format_dict
           [("--format", "json"); ("--long", "")]
           [("format", VStr "json"); ("long", VBool true)]
           Fixture.server [] [Fixture.gold]).
  - intros a [<-|[]]. split; discriminate.
  - reflexivity.
  - reflexivity.
Defined.

(** The long listing of the recorded world, asked for through the parser of
    a lister. *)
Example list_long_rows :
  fst (run_subcommand (ListVolumeType.get_parser Worlds.lister_parser)
         (ListVolumeType.take_action Fixture.attribute_row format_dict)
         [("--format", "json"); ("--long", "")] Fixture.server [])
  = Return (["ID"; "Name"; "Description"; "Properties"],
            [VList [VStr "7"; VStr "gold"; VNone; VStr ""]]).
Proof. reflexivity. Qed.
